(** * daily_sales_etl: a shallow embedding of the extract / transform / load
    pipeline of [daily_sales_etl.py] and the properties its specification
    states about it.

    Layout: the text model and [clean_column]; data frames and the pandas
    operations the stages use; the store and its primary key; the stages as
    programs of a state-and-exception monad; then the theorems. *)

From Stdlib Require Import String Ascii.
From Stdlib Require Import DecimalString.
From Stdlib Require Import List Bool Arith ZArith NArith Lia.
Import ListNotations.

Set Implicit Arguments.

(* ================================================================== *)
(** ** Text *)

(** A Python [str] is a sequence of Unicode code points. *)
Definition pystr := list N.

(** A string literal of the source, as its code points (ASCII literals). *)
Definition py (s : string) : pystr := map N_of_ascii (list_ascii_of_string s).

Arguments py : simpl never.

Definition pystr_eqb (a b : pystr) : bool :=
  if list_eq_dec N.eq_dec a b then true else false.

Module Text.

Definition between (lo hi c : N) : bool := ((lo <=? c) && (c <=? hi))%N.

Definition is_digit (c : N) : bool := between 48 57 c.     (* 0-9 *)
Definition is_upper (c : N) : bool := between 65 90 c.     (* A-Z *)
Definition is_lower (c : N) : bool := between 97 122 c.    (* a-z *)
Definition is_ascii (c : N) : bool := (c <? 128)%N.
Definition underscore : N := 95.

(** The code points for which [str.isspace] holds; [str.strip] without an
    argument and the class [\s] of a [str] pattern both use this set. *)
Definition isspace (c : N) : bool :=
  between 9 13 c || between 28 32 c || (c =? 133)%N || (c =? 160)%N
  || (c =? 5760)%N || between 8192 8202 c || (c =? 8232)%N || (c =? 8233)%N
  || (c =? 8239)%N || (c =? 8287)%N || (c =? 12288)%N.

Fixpoint lstrip (s : pystr) : pystr :=
  match s with
  | c :: t => if isspace c then lstrip t else s
  | [] => []
  end.

(** [col.strip()] *)
Definition strip (s : pystr) : pystr := rev (lstrip (rev (lstrip s))).

Definition ascii_lower (c : N) : N := if is_upper c then (c + 32)%N else c.

Section Lower.
(** Lowercasing of a string that holds a code point outside ASCII follows
    the Unicode case tables of the runtime, which are no part of the
    program: they are a parameter. A pure ASCII string takes the
    runtime's ASCII path, which is written out. *)
Variable unicode_lower : pystr -> pystr.

(** [col.lower()] *)
Definition lower (s : pystr) : pystr :=
  if forallb is_ascii s then map ascii_lower s else unicode_lower s.

(** The class [[0-9a-zA-Z\s_]]; the first [re.sub] deletes every
    character outside it. *)
Definition kept (c : N) : bool :=
  is_digit c || is_lower c || is_upper c || isspace c || (c =? underscore)%N.

Definition remove_special (s : pystr) : pystr := filter kept s.

(** [re.sub(r'\s+', '_', col)]: every maximal run of whitespace becomes
    one underscore. [in_run] tells that the previous character belonged
    to a run already replaced. *)
Fixpoint collapse_from (in_run : bool) (s : pystr) : pystr :=
  match s with
  | [] => []
  | c :: t =>
      if isspace c
      then (if in_run then collapse_from true t
            else underscore :: collapse_from true t)
      else c :: collapse_from false t
  end.

Definition collapse_spaces (s : pystr) : pystr := collapse_from false s.

Definition clean_column (col : pystr) : pystr :=
  let col := strip col in
  let col := lower col in
  let col := remove_special col in
  let col := collapse_spaces col in
  col.

(** Characters a cleaned name is made of when lowercasing leaves no
    capital behind: digits, small letters and the underscore. *)
Definition plain (c : N) : bool :=
  is_digit c || is_lower c || (c =? underscore)%N.

Definition all_plain (s : pystr) : Prop := Forall (fun c => plain c = true) s.

End Lower.

(** A lowercasing table to run examples with: the Kelvin sign becomes [k],
    the dotted capital I becomes [i] and a combining dot, ASCII capitals
    become small, everything else stays. *)
Definition sample_lower (s : pystr) : pystr :=
  flat_map (fun c => if (c =? 8490)%N then [107%N]
                     else if (c =? 304)%N then [105%N; 775%N]
                     else [ascii_lower c]) s.

End Text.

Import Text.

(* ================================================================== *)
(** ** The runtime *)

(** What the program takes from its runtime and does not define: the numbers
    held by numeric columns (int64 and float64 of pandas) with their product
    (which rounds for float64 and wraps around for int64),
    Python's product of a [str] and a number (repetition by an [int], an error
    otherwise) and Unicode lowercasing. *)
Class Runtime := {
  num : Type;
  num_mul : num -> num -> num;
  text_mul : pystr -> num -> option pystr;
  unicode_lower : pystr -> pystr;
}.

(* ================================================================== *)
(** ** Cells and frames *)

Section Frames.
Context {R : Runtime}.

(** A cell: missing (NaN / None), a number, or text. *)
Inductive cell := Null | Num (x : num) | Str (s : pystr).

Definition isnull (c : cell) : bool :=
  match c with Null => true | _ => false end.

(** A frame: the column labels in order, and the rows in order, each with
    its index label. A frame read from a file is rectangular: every row has
    one cell per column. *)
Record DataFrame := {
  columns : list pystr;
  rows : list (Z * list cell)
}.

Definition rectangular (df : DataFrame) : Prop :=
  Forall (fun r => length (snd r) = length (columns df)) (rows df).

Inductive exn :=
| AttributeError                  (* a method of None *)
| KeyError (label : pystr)        (* no column of that label *)
| ValueError                      (* a frame where a column is needed *)
| TypeError                       (* operands that cannot be multiplied *)
| FileNotFoundError (path : pystr)
| ParserError (path : pystr)
| OSError (path : pystr)          (* the sink cannot be written *)
| IOException                     (* the database cannot be opened *)
| CatalogException                (* the table does not exist *)
| BinderException                 (* column count differs from the table's *)
| ConversionException             (* a value does not convert to its column type *)
| ConstraintException.            (* PRIMARY KEY: null or duplicate key *)

Inductive result (A : Type) := Ok (a : A) | Raise (e : exn).
Arguments Ok {A} a.
Arguments Raise {A} e.

(** Positions of the columns that carry a label, in increasing order. *)
Fixpoint positions_from (i : nat) (l : pystr) (cols : list pystr) : list nat :=
  match cols with
  | [] => []
  | c :: t => if pystr_eqb c l then i :: positions_from (S i) l t
              else positions_from (S i) l t
  end.

Definition positions (l : pystr) (df : DataFrame) : list nat :=
  positions_from 0 l (columns df).

Definition cell_at (p : nat) (r : Z * list cell) : cell := nth p (snd r) Null.

(** [df[label]]: a column when one column carries the label, a frame when
    several do, KeyError when none does. *)
Inductive selection := Series (cells : list cell) | Frame.

Definition getitem (df : DataFrame) (l : pystr) : result selection :=
  match positions l df with
  | [] => Raise (KeyError l)
  | [p] => Ok (Series (map (cell_at p) (rows df)))
  | _ => Ok Frame
  end.

(** [df.dropna(subset=[label])]: the rows with no missing value in the
    columns of that label, in their order and with their index labels. *)
Definition dropna (df : DataFrame) (l : pystr) : result DataFrame :=
  match positions l df with
  | [] => Raise (KeyError l)
  | ps => Ok {| columns := columns df;
                rows := filter (fun r => forallb (fun p => negb (isnull (cell_at p r))) ps)
                               (rows df) |}
  end.

(** Product of two cells. Missing values are masked by pandas (the result is
    missing where an operand is); two present values are multiplied by
    Python's [*], which raises TypeError on two texts and on text and a
    number that is no [int]. *)
Definition cell_mul (a b : cell) : result cell :=
  match a, b with
  | Null, _ | _, Null => Ok Null
  | Num x, Num y => Ok (Num (num_mul x y))
  | Str s, Num n | Num n, Str s =>
      match text_mul s n with Some t => Ok (Str t) | None => Raise TypeError end
  | Str _, Str _ => Raise TypeError
  end.

Fixpoint cells_mul (q p : list cell) : result (list cell) :=
  match q, p with
  | a :: q', b :: p' =>
      match cell_mul a b with
      | Ok c => match cells_mul q' p' with
                | Ok t => Ok (c :: t)
                | Raise e => Raise e
                end
      | Raise e => Raise e
      end
  | _, _ => Ok []
  end.

(** [a * b] for two selections of one frame (same index, no alignment). A
    frame operand gives no column: the product, or the assignment of its
    result to a single label, raises. *)
Definition mul (a b : selection) : result (list cell) :=
  match a, b with
  | Series q, Series p => cells_mul q p
  | _, _ => Raise ValueError
  end.

(** One row of [df[label] = values]: every column carrying the label takes
    the value. *)
Fixpoint assign (l : pystr) (v : cell) (cols : list pystr) (r : list cell)
  : list cell :=
  match cols, r with
  | c :: cols', x :: r' =>
      (if pystr_eqb c l then v else x) :: assign l v cols' r'
  | _, _ => r
  end.

(** Replacing the cell at [p] of a row, and of every row by the values of a
    column: [df.iloc[:, p] = col]. *)
Fixpoint set_cell (p : nat) (v : cell) (r : list cell) : list cell :=
  match r with
  | [] => []
  | x :: t => match p with
              | 0 => v :: t
              | S p' => x :: set_cell p' v t
              end
  end.

Definition set_column (p : nat) (col : list cell) (rs : list (Z * list cell))
  : list (Z * list cell) :=
  map (fun rc => (fst (fst rc), set_cell p (snd rc) (snd (fst rc)))) (combine rs col).

(** The text of a number [j], as in the message of [KeyError(j)]. *)
Definition decimal_nat (j : nat) : pystr :=
  py (DecimalString.NilZero.string_of_uint (Nat.to_uint j)).

(** [values[j]] for a series with the index [idx] of the frame, as the column
    that [df[p] = values[j]] writes. The integer [j] is looked up among the
    index labels: no row of that label is a KeyError; one row gives its
    value, written to every row; several rows give a series, which is
    written row by row when its index is the frame's (every row has the
    label) and cannot be aligned otherwise (ValueError). *)
Definition pick (idx : list Z) (values : list cell) (j : nat) : result (list cell) :=
  match map snd (filter (fun iv => Z.eqb (fst iv) (Z.of_nat j)) (combine idx values)) with
  | [] => Raise (KeyError (decimal_nat j))
  | [v] => Ok (repeat v (length idx))
  | vs => if Nat.eqb (length vs) (length idx) then Ok vs else Raise ValueError
  end.

(** The loop of pandas over the columns [ps] that carry a repeated label:
    the [j]-th of them takes [values[j]]. *)
Fixpoint iset_each (idx : list Z) (values : list cell) (j : nat) (ps : list nat)
         (rs : list (Z * list cell)) : result (list (Z * list cell)) :=
  match ps with
  | [] => Ok rs
  | p :: ps' =>
      match pick idx values j with
      | Ok col => iset_each idx values (S j) ps' (set_column p col rs)
      | Raise e => Raise e
      end
  end.

(** [df[label] = values] for a series [values] with the index of [df]. No
    column of that label: one is added after the last column. One column, or
    several whose number differs from the number of values: every column of
    the label takes the values, row by row. Several columns, as many as there
    are values: pandas takes the values for one per column (the loop above),
    which raises unless the index labels are 0, 1, 2, ... in some order. *)
Definition setitem (df : DataFrame) (l : pystr) (values : list cell)
  : result DataFrame :=
  match positions l df with
  | [] => Ok {| columns := columns df ++ [l];
                rows := map (fun rv => (fst (fst rv), snd (fst rv) ++ [snd rv]))
                            (combine (rows df) values) |}
  | ps =>
      if Nat.ltb 1 (length ps) && Nat.eqb (length ps) (length values)
      then match iset_each (map fst (rows df)) values 0 ps (rows df) with
           | Ok rs => Ok {| columns := columns df; rows := rs |}
           | Raise e => Raise e
           end
      else Ok {| columns := columns df;
                 rows := map (fun rv => (fst (fst rv),
                                         assign l (snd rv) (columns df) (snd (fst rv))))
                             (combine (rows df) values) |}
  end.

(** [df.reset_index(drop=True)]: index labels 0, 1, 2, ... *)
Definition number_rows (rs : list (list cell)) : list (Z * list cell) :=
  combine (map Z.of_nat (seq 0 (length rs))) rs.

Definition reset_index (df : DataFrame) : DataFrame :=
  {| columns := columns df; rows := number_rows (map snd (rows df)) |}.

(** [df[mask]] for a boolean column [mask] *)
Definition select_rows (df : DataFrame) (mask : list bool) : DataFrame :=
  {| columns := columns df;
     rows := map fst (filter snd (combine (rows df) mask)) |}.

(** [df.empty]: no row or no column *)
Definition empty (df : DataFrame) : bool :=
  match rows df, columns df with
  | [], _ | _, [] => true
  | _, _ => false
  end.

Definition standardize_column_names (df : DataFrame) : DataFrame :=
  {| columns := map (clean_column unicode_lower) (columns df);
     rows := rows df |}.

End Frames.

Arguments Ok {A} a.
Arguments Raise {A} e.

(* ================================================================== *)
(** ** The store *)

(** A delimited file, represented by the table [read_csv] parses it to (its
    header and records), or unreadable as a table. *)
Inductive file {R : Runtime} :=
| Table (header : list pystr) (records : list (list cell))
| Unparseable.

(** What the engines outside the program make of the values of a frame. The
    database, on insertion: a number to VARCHAR for the key column, and the
    five other columns to their declared types (VARCHAR, INTEGER, DECIMAL,
    DATE, DECIMAL), [None] when a value does not convert. The CSV writer: the
    file [to_csv] leaves for a header and records is text, and [read_csv]
    infers the types of its values again (the text 001 is read as the number
    1, the text NA as a missing value), so the file is not the table that was
    written but what the reader makes of its text. *)
Class Engine {R : Runtime} := {
  varchar_of_num : num -> pystr;
  cast_fields : list cell -> option (list cell);
  written : list pystr -> list (list cell) -> file;
}.

Section Store.
Context {R : Runtime} {E : Engine}.

(** A record of [daily_sales]: the primary key [transaction_id] and the
    values of [product_id], [quantity], [price], [transaction_date],
    [total_revenue]. *)
Record record := {
  transaction_id : pystr;
  fields : list cell
}.

Definition store := list record.

Definition keys (s : store) : list pystr := map transaction_id s.

Definition mem (k : pystr) (ks : list pystr) : bool := existsb (pystr_eqb k) ks.

(** A row of the frame after conversion, before the constraint is checked:
    the first column, as VARCHAR or NULL, and the other columns. The columns
    of [SELECT * FROM new_data] go to the columns of the table by position. *)
Definition convert (r : list cell) : result (option pystr * list cell) :=
  match r with
  | [] => Raise BinderException
  | k :: rest =>
      match cast_fields rest with
      | None => Raise ConversionException
      | Some f =>
          Ok (match k with
              | Null => None
              | Str s => Some s
              | Num x => Some (varchar_of_num x)
              end, f)
      end
  end.

Fixpoint convert_all (rs : list (list cell))
  : result (list (option pystr * list cell)) :=
  match rs with
  | [] => Ok []
  | r :: t =>
      match convert r with
      | Raise e => Raise e
      | Ok c => match convert_all t with
                | Raise e => Raise e
                | Ok cs => Ok (c :: cs)
                end
      end
  end.

(** Appending under PRIMARY KEY: a NULL key, or a key already in the table
    or earlier in the same statement, violates the constraint. *)
Fixpoint append (s : store) (cs : list (option pystr * list cell)) : result store :=
  match cs with
  | [] => Ok s
  | (None, _) :: _ => Raise ConstraintException
  | (Some k, f) :: t =>
      if mem k (keys s) then Raise ConstraintException
      else append (s ++ [{| transaction_id := k; fields := f |}]) t
  end.

(** [INSERT INTO daily_sales SELECT * FROM new_data] as one statement: it
    yields the new table, or raises and leaves the table as it was. *)
Definition insert (s : store) (new_data : DataFrame) : result store :=
  if Nat.eqb (length (columns new_data)) 6
  then match convert_all (map snd (rows new_data)) with
       | Raise e => Raise e
       | Ok cs => append s cs
       end
  else Raise BinderException.

(** [Series.isin(existing)] for a set of keys read from the table: a cell is
    in the set when it is a text equal to one of them. *)
Definition isin (c : cell) (existing : list pystr) : bool :=
  match c with
  | Str s => mem s existing
  | _ => false
  end.

End Store.

(* ================================================================== *)
(** ** The world and the monad of the stages *)

Section Stages.
Context {R : Runtime} {E : Engine}.

Inductive entry :=
| INFO (message : pystr)
| ERROR (message : pystr) (e : exn).

Record world := {
  cwd : pystr;                          (* os.getcwd() *)
  files : list (pystr * file);          (* the first binding of a path counts *)
  writable : pystr -> bool;             (* the path can be opened for writing *)
  db_opens : bool;                      (* indonesiare.duckdb can be opened *)
  db : option store;                    (* daily_sales, None before it exists *)
  log : list entry                      (* oldest entry first *)
}.

Definition with_files (w : world) (f : list (pystr * file)) : world :=
  {| cwd := cwd w; files := f; writable := writable w;
     db_opens := db_opens w; db := db w; log := log w |}.

Definition with_db (w : world) (d : option store) : world :=
  {| cwd := cwd w; files := files w; writable := writable w;
     db_opens := db_opens w; db := d; log := log w |}.

Definition with_log (w : world) (l : list entry) : world :=
  {| cwd := cwd w; files := files w; writable := writable w;
     db_opens := db_opens w; db := db w; log := l |}.

(** Programs: they read and change the world and return or raise. What was
    done before an exception stays done. *)
Definition M (A : Type) : Type := world -> world * result A.

Definition ret {A} (a : A) : M A := fun w => (w, Ok a).

Definition raise {A} (e : exn) : M A := fun w => (w, Raise e).

Definition bind {A B} (m : M A) (k : A -> M B) : M B :=
  fun w => match m w with
           | (w', Ok a) => k a w'
           | (w', Raise e) => (w', Raise e)
           end.

Definition lift {A} (r : result A) : M A := fun w => (w, r).

(** [try: body  except Exception as e: handler e] *)
Definition try_except {A} (body : M A) (handler : exn -> M A) : M A :=
  fun w => match body w with
           | (w', Raise e) => handler e w'
           | done => done
           end.

End Stages.

Declare Scope prog_scope.
Delimit Scope prog_scope with prog.
Notation "x <- m ;; k" := (bind m (fun x => k))
  (at level 61, m at next level, right associativity) : prog_scope.
Notation "m ;; k" := (bind m (fun _ => k))
  (at level 61, right associativity) : prog_scope.

Section Pipeline.
Context {R : Runtime} {E : Engine}.
Local Open Scope prog_scope.

Definition logging_info (msg : pystr) : M unit :=
  fun w => (with_log w (log w ++ [INFO msg]), Ok tt).

Definition logging_error (msg : pystr) (e : exn) : M unit :=
  fun w => (with_log w (log w ++ [ERROR msg e]), Ok tt).

Definition getcwd : M pystr := fun w => (w, Ok (cwd w)).

Fixpoint lookup (path : pystr) (fs : list (pystr * file)) : option file :=
  match fs with
  | [] => None
  | (p, f) :: t => if pystr_eqb p path then Some f else lookup path t
  end.

(** [pd.read_csv(file_path)]: the rows get the index labels 0, 1, 2, ... *)
Definition read_csv (path : pystr) : M DataFrame :=
  fun w => match lookup path (files w) with
           | None => (w, Raise (FileNotFoundError path))
           | Some Unparseable => (w, Raise (ParserError path))
           | Some (Table h rs) =>
               (w, Ok {| columns := h; rows := number_rows rs |})
           end.

(** [df.to_csv(path, index=False)]: the text of the header and of the
    records, without the index. *)
Definition to_csv (df : DataFrame) (path : pystr) : M unit :=
  fun w => if writable w path
           then (with_files w ((path, written (columns df) (map snd (rows df)))
                                 :: files w), Ok tt)
           else (w, Raise (OSError path)).

(** A stage may be handed [None] by the stage before it; a method call on
    [None] raises AttributeError. *)
Definition method_of (df : option DataFrame) : M DataFrame :=
  match df with
  | Some d => ret d
  | None => raise AttributeError
  end.

Definition connect : M unit :=
  fun w => if db_opens w then (w, Ok tt) else (w, Raise IOException).

(** [CREATE TABLE IF NOT EXISTS daily_sales (...)] *)
Definition create_table_if_not_exists : M unit :=
  fun w => match db w with
           | Some _ => (w, Ok tt)
           | None => (with_db w (Some []), Ok tt)
           end.

(** [SELECT transaction_id FROM daily_sales], fetched *)
Definition select_transaction_id : M (list pystr) :=
  fun w => match db w with
           | Some s => (w, Ok (keys s))
           | None => (w, Raise CatalogException)
           end.

Definition insert_into_daily_sales (new_data : DataFrame) : M unit :=
  fun w => match db w with
           | None => (w, Raise CatalogException)
           | Some s => match insert s new_data with
                       | Ok s' => (with_db w (Some s'), Ok tt)
                       | Raise e => (w, Raise e)
                       end
           end.

(** [df[~df["transaction_id"].isin(existing_transaction)]]. With several
    columns of that label the selection is a frame and the mask is no
    column; that case is not followed further and is taken to raise. *)
Definition new_rows (df : DataFrame) (existing : list pystr) : M DataFrame :=
  sel <- lift (getitem df (py "transaction_id")) ;;
  match sel with
  | Series ids => ret (select_rows df (map (fun c => negb (isin c existing)) ids))
  | Frame => raise ValueError
  end.

(** [con.close()] *)
Definition close : M unit := ret tt.

(** The [try] block of each stage, then the stage: an exception of the
    block is logged by the handler, after which the function ends without a
    [return], that is with [None]. *)
Definition extract_try (file_path : pystr) : M (option DataFrame) :=
  logging_info (py "Extract started") ;;
  df <- read_csv file_path ;;
  let df := standardize_column_names df in
  logging_info (py "Extract succesfully") ;;
  ret (Some df).

Definition extract (file_path : pystr) : M (option DataFrame) :=
  try_except (extract_try file_path)
    (fun e =>
       logging_error (py "Extract failed, something went wrong: ") e ;;
       ret None).

Definition transform_try (df : option DataFrame) : M (option DataFrame) :=
  logging_info (py "Transform started") ;;
  d <- method_of df ;;
  (* [.copy()]: frames are values here, the result shares nothing with [df] *)
  df_transform <- lift (dropna d (py "price")) ;;
  quantity <- lift (getitem df_transform (py "quantity")) ;;
  price <- lift (getitem df_transform (py "price")) ;;
  revenue <- lift (mul quantity price) ;;
  df_transform <- lift (setitem df_transform (py "total_revenue") revenue) ;;
  logging_info (py "Transform succesfully") ;;
  ret (Some df_transform).

Definition transform (df : option DataFrame) : M (option DataFrame) :=
  try_except (transform_try df)
    (fun e =>
       logging_error (py "Transform failed, something went wrong: ") e ;;
       ret None).

Definition load_try (df : option DataFrame) (output_file_path : pystr)
  : M (option DataFrame) :=
  logging_info (py "Load started") ;;
  d <- method_of df ;;
  let df := reset_index d in
  logging_info (py "Export to csv started") ;;
  to_csv df output_file_path ;;
  logging_info (py "file export successful. file is in " ++ output_file_path) ;;
  logging_info (py "Load to duckdb started") ;;
  _current_path <- getcwd ;;
  let duckdb_file_path := _current_path ++ py "/indonesiare.duckdb" in
  connect ;;
  create_table_if_not_exists ;;
  existing_transaction <- select_transaction_id ;;
  new_data <- new_rows df existing_transaction ;;
  (if negb (empty new_data)
   then insert_into_daily_sales new_data ;;
        logging_info (py "New data has been saved.")
   else logging_info (py "There is no new data to be save.")) ;;
  close ;;
  logging_info (py "Load to duckdb successful. file is in " ++ duckdb_file_path) ;;
  logging_info (py "Load succesfully") ;;
  ret (Some df).

Definition load (df : option DataFrame) (output_file_path : pystr)
  : M (option DataFrame) :=
  try_except (load_try df output_file_path)
    (fun e =>
       logging_error (py "Load failed, something went wrong: ") e ;;
       ret None).

Definition main : M (option DataFrame) :=
  current_path <- getcwd ;;
  let file_path := current_path ++ py "/data/DE_daily_sales.csv" in
  let output_file_path := current_path ++ py "/output/daily_sales_cleaned.csv" in
  df <- extract file_path ;;
  df <- transform df ;;
  df <- load df output_file_path ;;
  ret df.

End Pipeline.

(** ** Column-name normalization in the words of the specification

    Trim whitespace, lowercase, remove the characters that are neither
    alphanumeric nor underscore (whitespace stays for the last step), collapse
    the whitespace runs to single underscores. Written independently of
    [clean_column], to be compared with it. *)
Module Worded.

(** Without its trailing whitespace. *)
Fixpoint rtrim (s : pystr) : pystr :=
  match s with
  | [] => []
  | c :: t => match rtrim t with
              | [] => if isspace c then [] else [c]
              | r => c :: r
              end
  end.

Fixpoint ltrim (s : pystr) : pystr :=
  match s with
  | [] => []
  | c :: t => if isspace c then ltrim t else c :: t
  end.

Definition trim (s : pystr) : pystr := rtrim (ltrim s).

Definition alphanumeric (c : N) : bool := is_digit c || (is_lower c || is_upper c).

Definition remove_other (s : pystr) : pystr :=
  filter (fun c => alphanumeric c || (c =? underscore)%N || isspace c) s.

(** Of a run of whitespace only the last character counts, as an
    underscore. *)
Fixpoint collapse_runs (s : pystr) : pystr :=
  match s with
  | [] => []
  | c :: t =>
      if isspace c
      then match t with
           | c' :: _ => if isspace c' then collapse_runs t
                        else underscore :: collapse_runs t
           | [] => [underscore]
           end
      else c :: collapse_runs t
  end.

Definition normalize (unicode_lower : pystr -> pystr) (name : pystr) : pystr :=
  collapse_runs (remove_other (lower unicode_lower (trim name))).

End Worded.

(** The rows of a frame whose cell in column [pp] is present. *)
Definition surviving {R : Runtime} (pp : nat) (df : DataFrame) : list (Z * list cell) :=
  filter (fun r => negb (isnull (cell_at pp r))) (rows df).

(** The table a world holds, empty while it does not exist. *)
Definition table {R : Runtime} {E : Engine} (w : world) : store :=
  match db w with Some s => s | None => [] end.

(** A world with more log entries. *)
Definition logged {R : Runtime} (w : world) (l : list entry) : world :=
  with_log w (log w ++ l).

(** What one load does to the table, apart from the world: the rows whose
    [transaction_id] is not among the keys are appended by one insert. *)
Definition merge {R : Runtime} {E : Engine} (s : store) (df : DataFrame) : result store :=
  match getitem df (py "transaction_id") with
  | Raise e => Raise e
  | Ok Frame => Raise ValueError
  | Ok (Series ids) =>
      let new_data := select_rows df (map (fun c => negb (isin c (keys s))) ids) in
      if negb (empty new_data) then insert s new_data else Ok s
  end.

(** The rows load finds new: those whose cell in column [p] is not a key. *)
Definition fresh {R : Runtime} {E : Engine} (p : nat) (s : store) (df : DataFrame)
  : DataFrame :=
  {| columns := columns df;
     rows := filter (fun r => negb (isin (cell_at p r) (keys s))) (rows df) |}.

(** The paths of the entry point. *)
Definition input_path {R : Runtime} (w : world) : pystr :=
  cwd w ++ py "/data/DE_daily_sales.csv".

Definition output_path {R : Runtime} (w : world) : pystr :=
  cwd w ++ py "/output/daily_sales_cleaned.csv".

(** The column labels of [daily_sales], in the order of its declaration. *)
Definition schema : list pystr :=
  [py "transaction_id"; py "product_id"; py "quantity"; py "price";
   py "transaction_date"; py "total_revenue"].

(** A frame with the columns of the table and rows numbered from 0. *)
Definition sales_frame {R : Runtime} (rs : list (list cell)) : DataFrame :=
  {| columns := schema; rows := number_rows rs |}.

(** One run of the pipeline: the environment delivers the day's input file, or
    none, and the entry point runs. A sequence of runs shares the world. *)
Definition deliver {R : Runtime} (input : option file) (w : world) : world :=
  match input with
  | Some f => with_files w ((input_path w, f) :: files w)
  | None => w
  end.

Definition run_pipeline {R : Runtime} {E : Engine} (input : option file) (w : world)
  : world :=
  fst (main (deliver input w)).

Fixpoint run_all {R : Runtime} {E : Engine} (inputs : list (option file)) (w : world)
  : world :=
  match inputs with
  | [] => w
  | input :: later => run_all later (run_pipeline input w)
  end.

(** The records of an input file that have a price, and among some records
    those whose id is no key of a table; by position in the layout of the
    input file: id first, quantity third, price fourth. *)
Definition priced {R : Runtime} (rs : list (list cell)) : list (list cell) :=
  filter (fun cells => negb (isnull (nth 3 cells Null))) rs.

Definition unseen {R : Runtime} {E : Engine} (s : store) (rs : list (list cell))
  : list (list cell) :=
  filter (fun cells => negb (isin (nth 0 cells Null) (keys s))) rs.

(** ** A runtime to run examples with: integers as numbers, every value
    convertible, and files that read as the tables written to them (the
    sample tables hold no text that reads as a number or as a missing
    value). *)
Module Sample.

Definition repeat_text (s : pystr) (n : Z) : option pystr :=
  Some (concat (repeat s (Z.to_nat n))).

Definition decimal (z : Z) : pystr :=
  py (DecimalString.NilZero.string_of_int (Z.to_int z)).

#[global] Instance runtime : Runtime :=
  {| num := Z; num_mul := Z.mul; text_mul := repeat_text;
     unicode_lower := sample_lower |}.

#[global] Instance engine : Engine :=
  {| varchar_of_num := decimal; cast_fields := fun f => Some f;
     written := fun h rs => Table h rs |}.

Definition blank : world :=
  {| cwd := py "/srv"; files := []; writable := fun _ => true;
     db_opens := true; db := None; log := [] |}.

Definition sale (id product : string) (quantity price : cell) (date : string)
  : list cell :=
  [Str (py id); Str (py product); quantity; price; Str (py date)].

(** An extract as it comes out of [extract]: the sixth column is missing
    until transform adds it; one row has no price, one no quantity. *)
Definition sales : DataFrame :=
  {| columns := firstn 5 schema;
     rows := number_rows
               [sale "T1" "P1" (Num 2%Z) (Num 10%Z) "2024-01-01";
                sale "T2" "P2" (Num 1%Z) Null "2024-01-01";
                sale "T3" "P1" Null (Num 5%Z) "2024-01-02";
                sale "T4" "P3" (Num 3%Z) (Num 7%Z) "2024-01-02"] |}.

(** What transform makes of it. *)
Definition transformed : DataFrame :=
  {| columns := schema;
     rows := [(0%Z, sale "T1" "P1" (Num 2%Z) (Num 10%Z) "2024-01-01" ++ [Num 20%Z]);
              (2%Z, sale "T3" "P1" Null (Num 5%Z) "2024-01-02" ++ [Null]);
              (3%Z, sale "T4" "P3" (Num 3%Z) (Num 7%Z) "2024-01-02" ++ [Num 21%Z])] |}.


(** Two batches for the table, and one that repeats an id. *)
Definition fields_a : list cell :=
  [Str (py "P1"); Num 2%Z; Num 10%Z; Str (py "2024-01-01"); Num 20%Z].
Definition fields_b : list cell :=
  [Str (py "P2"); Num 1%Z; Num 4%Z; Str (py "2024-01-01"); Num 4%Z].
Definition fields_b' : list cell :=
  [Str (py "P2"); Num 5%Z; Num 4%Z; Str (py "2024-01-02"); Num 20%Z].
Definition fields_c : list cell :=
  [Str (py "P3"); Num 3%Z; Num 7%Z; Str (py "2024-01-02"); Num 21%Z].

Definition batch_ab : DataFrame :=
  sales_frame [Str (py "A") :: fields_a; Str (py "B") :: fields_b].
Definition batch_bc : DataFrame :=
  sales_frame [Str (py "B") :: fields_b'; Str (py "C") :: fields_c].
Definition batch_aa : DataFrame :=
  sales_frame [Str (py "A") :: fields_a; Str (py "A") :: fields_b].

Definition sink : pystr := py "/srv/output/daily_sales_cleaned.csv".

(** Input files as they arrive, headers not yet normalized. *)
Definition monday : file :=
  Table [py " Transaction ID "; py "Product ID!"; py "Quantity"; py "Price";
         py "Transaction  Date"]
        (map snd (rows sales)).

Definition tuesday : file :=
  Table [py "transaction_id"; py "product_id"; py "quantity"; py "price";
         py "transaction_date"]
        [sale "T4" "P3" (Num 9%Z) (Num 9%Z) "2024-01-03";
         sale "T5" "P1" (Num 1%Z) (Num 10%Z) "2024-01-03"].

(** A world whose sink cannot be written, a batch with numeric ids and a
    batch with a missing id. *)
Definition readonly : world :=
  {| cwd := py "/srv"; files := []; writable := fun _ => false;
     db_opens := true; db := None; log := [] |}.

Definition batch_numeric : DataFrame :=
  sales_frame [Num 1001%Z :: fields_a; Num 1002%Z :: fields_b].

Definition batch_null : DataFrame :=
  sales_frame [Str (py "A") :: fields_a; Null :: fields_b].

(** A table that already has two columns [total_revenue], and as many rows:
    before and after transform. *)
Definition twice_revenue : DataFrame :=
  {| columns := [py "quantity"; py "price"; py "total_revenue"; py "total_revenue"];
     rows := [(0%Z, [Num 2%Z; Num 3%Z; Null; Null]);
              (1%Z, [Num 4%Z; Num 5%Z; Null; Null])] |}.

Definition twice_revenue_transformed : DataFrame :=
  {| columns := [py "quantity"; py "price"; py "total_revenue"; py "total_revenue"];
     rows := [(0%Z, [Num 2%Z; Num 3%Z; Num 6%Z; Num 20%Z]);
              (1%Z, [Num 4%Z; Num 5%Z; Num 6%Z; Num 20%Z])] |}.

(** The blank world on Monday morning. *)
Definition monday_morning : world := deliver (Some monday) blank.

Definition monday_header : list pystr :=
  [py " Transaction ID "; py "Product ID!"; py "Quantity"; py "Price";
   py "Transaction  Date"].

End Sample.

(** ** Columns of 64-bit integers: the product of numpy wraps around. *)
Module Int64.

Definition wrap (z : Z) : Z := ((z + 2 ^ 63) mod 2 ^ 64 - 2 ^ 63)%Z.

Definition runtime : Runtime :=
  {| num := Z; num_mul := fun a b => wrap (a * b);
     text_mul := Sample.repeat_text; unicode_lower := sample_lower |}.

Definition blank : @world runtime :=
  {| cwd := py "/srv"; files := []; writable := fun _ => true;
     db_opens := true; db := None; log := [] |}.



End Int64.

(** Boolean character tests, turned into linear arithmetic. *)
Ltac chars :=
  unfold plain, kept, isspace, is_digit, is_lower, is_upper, is_ascii,
    ascii_lower, between, underscore in *;
  repeat match goal with
         | H : _ = false |- _ => apply Bool.not_true_iff_false in H
         | |- _ = false => apply Bool.not_true_iff_false; intro
         end;
  rewrite ?Bool.orb_true_iff, ?Bool.andb_true_iff, ?N.leb_le, ?N.ltb_lt,
    ?N.eqb_eq in *;
  lia.

(* ================================================================== *)
(** ** Theorems: text *)

Section TextFacts.
Variable unicode_lower : pystr -> pystr.

Lemma plain_not_space c : plain c = true -> isspace c = false.
Proof. intros H. chars. Qed.

Lemma plain_kept c : plain c = true -> kept c = true.
Proof. intros H. chars. Qed.

Lemma plain_ascii c : plain c = true -> is_ascii c = true.
Proof. intros H. chars. Qed.

Lemma plain_not_upper c : plain c = true -> is_upper c = false.
Proof. intros H. chars. Qed.

Lemma lstrip_plain s : all_plain s -> lstrip s = s.
Proof.
  destruct 1 as [|c t Hc Ht]; simpl; [reflexivity|].
  now rewrite (plain_not_space c Hc).
Qed.

Lemma strip_plain s : all_plain s -> strip s = s.
Proof.
  intros H. unfold strip. rewrite (lstrip_plain H).
  rewrite lstrip_plain by (apply Forall_rev; exact H).
  apply rev_involutive.
Qed.

Lemma lower_plain s : all_plain s -> lower unicode_lower s = s.
Proof.
  intros H. unfold lower.
  assert (Ha : forallb is_ascii s = true).
  { apply forallb_forall. intros c Hc.
    apply plain_ascii. revert c Hc. now apply Forall_forall. }
  rewrite Ha. induction H as [|c t Hc Ht IH]; simpl; [reflexivity|].
  simpl in Ha. apply Bool.andb_true_iff in Ha as [_ Ha].
  rewrite (IH Ha). unfold ascii_lower.
  now rewrite (plain_not_upper c Hc).
Qed.

Lemma remove_special_plain s : all_plain s -> remove_special s = s.
Proof.
  unfold remove_special.
  induction 1 as [|c t Hc Ht IH]; simpl; [reflexivity|].
  now rewrite (plain_kept c Hc), IH.
Qed.

Lemma collapse_from_plain s : all_plain s -> forall b, collapse_from b s = s.
Proof.
  induction 1 as [|c t Hc Ht IH]; intros b; simpl; [reflexivity|].
  now rewrite (plain_not_space c Hc), IH.
Qed.

(** A name made of digits, small letters and underscores is a fixed point. *)
Lemma clean_column_plain s : all_plain s -> clean_column unicode_lower s = s.
Proof.
  intros H. unfold clean_column, collapse_spaces.
  rewrite (strip_plain H), (lower_plain H), (remove_special_plain H).
  now apply collapse_from_plain.
Qed.

(** What the two substitutions leave of a string without capitals. *)
Lemma collapse_from_lowered s :
  Forall (fun c => kept c = true /\ is_upper c = false) s ->
  forall b, all_plain (collapse_from b s).
Proof.
  induction 1 as [|c t [Hk Hu] Ht IH]; intros b; simpl; [constructor|].
  destruct (isspace c) eqn:Hs.
  - destruct b; [apply IH|]. constructor; [reflexivity | apply IH].
  - constructor; [chars | apply IH].
Qed.

Hypothesis unicode_lower_no_capital :
  forall s c, In c (unicode_lower s) -> is_upper c = false.

Lemma lower_no_capital s c : In c (lower unicode_lower s) -> is_upper c = false.
Proof.
  unfold lower. destruct (forallb is_ascii s).
  - intros Hin. apply in_map_iff in Hin as [d [<- _]].
    unfold ascii_lower. destruct (is_upper d) eqn:Hd; chars.
  - apply unicode_lower_no_capital.
Qed.

Lemma clean_column_all_plain s : all_plain (clean_column unicode_lower s).
Proof.
  unfold clean_column, collapse_spaces, remove_special.
  apply collapse_from_lowered. apply Forall_forall. intros c Hc.
  apply filter_In in Hc as [Hin Hk]. split; [exact Hk|].
  exact (lower_no_capital _ _ Hin).
Qed.

End TextFacts.

(** C5. Column-name normalization is idempotent: cleaning a cleaned name
    gives the same name, for every string, and so normalizing a normalized
    list of names gives the same list; provided the runtime's lowercase
    mapping of non-ASCII text produces no ASCII capital letter (as Unicode's
    does). *)
Theorem clean_column_idempotent (unicode_lower : pystr -> pystr)
    (Hlow : forall s c, In c (unicode_lower s) -> is_upper c = false) :
  (forall c : pystr,
     clean_column unicode_lower (clean_column unicode_lower c)
     = clean_column unicode_lower c) /\
  (forall names : list pystr,
     map (clean_column unicode_lower) (map (clean_column unicode_lower) names)
     = map (clean_column unicode_lower) names).
Proof.
  assert (H : forall c, clean_column unicode_lower (clean_column unicode_lower c)
                        = clean_column unicode_lower c).
  { intros c. apply clean_column_plain. now apply clean_column_all_plain. }
  split; [exact H|].
  intros names. rewrite map_map. apply map_ext. exact H.
Qed.

Lemma sample_lower_no_capital s c : In c (sample_lower s) -> is_upper c = false.
Proof.
  unfold sample_lower. intros H. apply in_flat_map in H as [d [_ H]].
  destruct (N.eqb_spec d 8490); [destruct H as [<-|[]]; reflexivity|].
  destruct (N.eqb_spec d 304); [destruct H as [<-|[<-|[]]]; reflexivity|].
  destruct H as [<-|[]]. unfold ascii_lower.
  destruct (is_upper d) eqn:Hd; chars.
Qed.

Lemma clean_column_idempotent_witness :
  (forall s c, In c (sample_lower s) -> is_upper c = false) /\
  clean_column sample_lower (clean_column sample_lower (py " Harga (Rp) "))
  = clean_column sample_lower (py " Harga (Rp) ").
Proof.
  split; [exact sample_lower_no_capital|].
  apply (proj1 (clean_column_idempotent sample_lower sample_lower_no_capital)).
Defined.

(* ================================================================== *)
(** ** Theorems: frames *)

Lemma pystr_eqb_eq (a b : pystr) : pystr_eqb a b = true <-> a = b.
Proof.
  unfold pystr_eqb. destruct (list_eq_dec N.eq_dec a b); split; congruence.
Qed.

Lemma pystr_eqb_refl (a : pystr) : pystr_eqb a a = true.
Proof. now apply pystr_eqb_eq. Qed.

Lemma pystr_eqb_neq (a b : pystr) : a <> b -> pystr_eqb a b = false.
Proof.
  intros H. destruct (pystr_eqb a b) eqn:Hab; [|reflexivity].
  now apply pystr_eqb_eq in Hab.
Qed.

Section FrameFacts.
Context {R : Runtime}.

Lemma positions_from_In l cols : forall i j,
  In j (positions_from i l cols) <->
  exists k, j = i + k /\ nth_error cols k = Some l.
Proof.
  induction cols as [|c t IH]; intros i j; simpl.
  - split; [intros [] | intros [k [_ Hk]]]. now destruct k.
  - destruct (pystr_eqb c l) eqn:Hc.
    + apply pystr_eqb_eq in Hc. subst c. simpl. rewrite IH. split.
      * intros [<- | [k [-> Hk]]].
        -- exists 0. split; [lia | reflexivity].
        -- exists (S k). split; [lia | exact Hk].
      * intros [[|k] [-> Hk]]; [left; lia|].
        right. exists k. split; [lia | exact Hk].
    + rewrite IH. split.
      * intros [k [-> Hk]]. exists (S k). split; [lia | exact Hk].
      * intros [[|k] [-> Hk]].
        -- simpl in Hk. injection Hk as ->. now rewrite pystr_eqb_refl in Hc.
        -- exists k. split; [lia | exact Hk].
Qed.

Lemma positions_from_app l a b : forall i,
  positions_from i l (a ++ b)
  = positions_from i l a ++ positions_from (i + length a) l b.
Proof.
  induction a as [|c t IH]; intros i; simpl.
  - now rewrite Nat.add_0_r.
  - rewrite IH. replace (S i + length t) with (i + S (length t)) by lia.
    now destruct (pystr_eqb c l).
Qed.


Lemma assign_length l v cols : forall r, length (assign l v cols r) = length r.
Proof.
  induction cols as [|c t IH]; intros [|x r]; simpl; auto.
Qed.

Lemma assign_other l v cols : forall r j,
  nth_error cols j <> Some l ->
  nth j (assign l v cols r) Null = nth j r Null.
Proof.
  induction cols as [|c t IH]; intros [|x r] j H; simpl; auto.
  destruct j as [|j]; simpl in *.
  - destruct (pystr_eqb c l) eqn:Hc; [|reflexivity].
    apply pystr_eqb_eq in Hc. congruence.
  - now apply IH.
Qed.


Lemma cells_mul_map {A} (f g : A -> cell) : forall l tr,
  cells_mul (map f l) (map g l) = Ok tr ->
  Forall2 (fun r t => cell_mul (f r) (g r) = Ok t) l tr.
Proof.
  induction l as [|a l IH]; intros tr H; simpl in H.
  - injection H as <-. constructor.
  - destruct (cell_mul (f a) (g a)) as [c|e] eqn:Hc; [|discriminate].
    destruct (cells_mul (map f l) (map g l)) as [t|e] eqn:Ht; [|discriminate].
    injection H as <-. constructor; [exact Hc | now apply IH].
Qed.

Lemma cell_mul_null_l (b : cell) : cell_mul Null b = Ok Null.
Proof. reflexivity. Qed.

Lemma cell_mul_null_r (a : cell) : cell_mul a Null = Ok Null.
Proof. now destruct a. Qed.

Lemma combine_Forall2 {A B} (P : A -> B -> Prop) (l : list A) (l' : list B) :
  Forall2 P l l' -> Forall (fun ab => P (fst ab) (snd ab)) (combine l l').
Proof. induction 1; simpl; constructor; auto. Qed.

Lemma Forall2_map_combine {A B C} (P : A -> B -> Prop) (h : A * B -> C)
      (Q : C -> A -> Prop) (l : list A) (l' : list B) :
  Forall2 P l l' ->
  (forall a b, P a b -> Q (h (a, b)) a) ->
  Forall2 Q (map h (combine l l')) l.
Proof. induction 1; intros HQ; simpl; constructor; auto. Qed.

Lemma Forall2_compose {A B C} (P : A -> B -> Prop) (Q : B -> C -> Prop)
      (S : A -> C -> Prop) :
  (forall a b c, P a b -> Q b c -> S a c) ->
  forall l1 l2 l3, Forall2 P l1 l2 -> Forall2 Q l2 l3 -> Forall2 S l1 l3.
Proof.
  intros HS l1 l2 l3 H. revert l3.
  induction H as [|a b l1 l2 Hab _ IH]; intros l3 H3; inversion H3; subst;
    constructor; eauto.
Qed.

Lemma Forall2_same {A} (P : A -> A -> Prop) (l : list A) :
  (forall a, P a a) -> Forall2 P l l.
Proof. intros H. induction l; constructor; auto. Qed.

Lemma positions_from_NoDup l cols : forall i, NoDup (positions_from i l cols).
Proof.
  induction cols as [|c t IH]; intros i; simpl; [constructor|].
  destruct (pystr_eqb c l); [|apply IH].
  constructor; [|apply IH].
  intros H. apply positions_from_In in H as [k [Hk _]]. lia.
Qed.

Lemma set_cell_length p v : forall r, length (set_cell p v r) = length r.
Proof.
  induction p as [|p IH]; intros [|x r]; simpl; auto.
Qed.

Lemma set_cell_other v : forall p r j,
  j <> p -> nth j (set_cell p v r) Null = nth j r Null.
Proof.
  induction p as [|p IH]; intros [|x r] j Hj; simpl; auto.
  - destruct j; [contradiction | reflexivity].
  - destruct j; [reflexivity|]. apply IH. lia.
Qed.

Lemma set_cell_twice v : forall p r, set_cell p v (set_cell p v r) = set_cell p v r.
Proof.
  induction p as [|p IH]; intros [|x r]; simpl; auto. now rewrite IH.
Qed.

Lemma set_cell_comm v u : forall p q r,
  p <> q -> set_cell p v (set_cell q u r) = set_cell q u (set_cell p v r).
Proof.
  induction p as [|p IH]; intros [|q] [|x r] H; simpl; auto; try contradiction.
  rewrite IH; [reflexivity | lia].
Qed.

Lemma set_column_twice p : forall rs col,
  set_column p col (set_column p col rs) = set_column p col rs.
Proof.
  unfold set_column.
  induction rs as [|r rs IH]; intros [|c col]; simpl; auto.
  now rewrite set_cell_twice, IH.
Qed.

Lemma set_column_comm p q : p <> q -> forall rs col col',
  set_column p col (set_column q col' rs) = set_column q col' (set_column p col rs).
Proof.
  intros Hpq. unfold set_column.
  induction rs as [|r rs IH]; intros [|c col] [|c' col']; simpl; auto.
  rewrite IH. f_equal. f_equal. now apply set_cell_comm.
Qed.

Lemma set_column_frame p : forall rs col,
  length col = length rs ->
  Forall2 (fun ro ri => fst ro = fst ri /\ length (snd ro) = length (snd ri) /\
                        forall j, j <> p -> cell_at j ro = cell_at j ri)
          (set_column p col rs) rs.
Proof.
  unfold set_column.
  induction rs as [|r rs IH]; intros [|c col] Hlen; simpl in *; try discriminate;
    constructor.
  - simpl. split; [reflexivity|]. split; [apply set_cell_length|].
    intros j Hj. unfold cell_at. simpl. now apply set_cell_other.
  - apply IH. lia.
Qed.

Lemma pick_length idx values j col :
  pick idx values j = Ok col -> length col = length idx.
Proof.
  unfold pick.
  destruct (map snd _) as [|v [|v' vs]] eqn:Hm; [discriminate| |].
  - intros H. injection H as <-. apply repeat_length.
  - destruct (Nat.eqb _ _) eqn:Hl; [|discriminate].
    intros H. injection H as <-. now apply Nat.eqb_eq in Hl.
Qed.

(** The loop keeps the index labels, the length of every row, and the cells
    of the columns it does not write. *)
Lemma iset_each_frame idx values : forall ps j rs out,
  length rs = length idx ->
  iset_each idx values j ps rs = Ok out ->
  Forall2 (fun ro ri => fst ro = fst ri /\ length (snd ro) = length (snd ri) /\
                        forall c, ~ In c ps -> cell_at c ro = cell_at c ri)
          out rs.
Proof.
  induction ps as [|p ps IH]; intros j rs out Hlen H; simpl in H.
  - injection H as <-. apply Forall2_same. auto.
  - destruct (pick idx values j) as [col|e] eqn:Hp; [|discriminate].
    apply pick_length in Hp.
    assert (Hf := @set_column_frame p rs col ltac:(congruence)).
    apply IH in H; [|rewrite (Forall2_length Hf); exact Hlen].
    eapply Forall2_compose; [|exact H|exact Hf].
    cbv beta. intros a b c (Ha & Hb & Hc) (Ha' & Hb' & Hc').
    split; [congruence|]. split; [congruence|].
    intros k Hk. rewrite Hc, Hc'; [reflexivity| |]; intros Hin; apply Hk;
      [now left | now right].
Qed.

(** A column written before the loop, and not by it, is as it was. *)
Lemma iset_each_fixed idx values q col : forall ps j rs out,
  ~ In q ps ->
  set_column q col rs = rs ->
  iset_each idx values j ps rs = Ok out ->
  set_column q col out = out.
Proof.
  induction ps as [|p ps IH]; intros j rs out Hq Hfix H; simpl in H.
  - now injection H as <-.
  - destruct (pick idx values j) as [col'|e]; [|discriminate].
    apply IH in H; [exact H | intros Hin; apply Hq; now right|].
    rewrite set_column_comm, Hfix; [reflexivity|].
    intros ->. apply Hq. now left.
Qed.

(** Running the loop on its own result changes nothing. *)
Lemma iset_each_again idx values : forall ps j rs out,
  NoDup ps ->
  iset_each idx values j ps rs = Ok out ->
  iset_each idx values j ps out = Ok out.
Proof.
  induction ps as [|p ps IH]; intros j rs out Hnd H; simpl in *; [reflexivity|].
  inversion Hnd as [|? ? Hp Hnd']; subst.
  destruct (pick idx values j) as [col|e]; [|discriminate].
  rewrite (@iset_each_fixed idx values p col ps (S j) (set_column p col rs) out
             Hp (set_column_twice p rs col) H).
  eapply IH; eassumption.
Qed.

Lemma assign_same l v cols : forall r,
  length r = length cols ->
  (forall j, nth_error cols j = Some l -> nth j r Null = v) ->
  assign l v cols r = r.
Proof.
  induction cols as [|c cols IH]; intros [|x r] Hlen Hv; cbn in *;
    try reflexivity; try discriminate.
  rewrite IH; [|lia|intros j Hj; exact (Hv (S j) Hj)].
  destruct (pystr_eqb c l) eqn:Hc; [|reflexivity].
  apply pystr_eqb_eq in Hc. subst c. now rewrite <- (Hv 0 eq_refl).
Qed.

Lemma assign_twice l v cols : forall r,
  assign l v cols (assign l v cols r) = assign l v cols r.
Proof.
  induction cols as [|c cols IH]; intros [|x r]; simpl; auto.
  rewrite IH. now destruct (pystr_eqb c l).
Qed.

End FrameFacts.

(* ================================================================== *)
(** ** Theorems: transform *)

Section TransformFacts.
Context {R : Runtime} {E : Engine}.

(** What a successful transform computed. *)
Lemma transform_Some o w w' out :
  transform o w = (w', Ok (Some out)) ->
  exists df pq pp tr,
    o = Some df /\
    positions (py "price") df = [pp] /\
    positions (py "quantity") df = [pq] /\
    cells_mul (map (cell_at pq) (surviving pp df))
              (map (cell_at pp) (surviving pp df)) = Ok tr /\
    setitem {| columns := columns df; rows := surviving pp df |}
            (py "total_revenue") tr = Ok out.
Proof.
  unfold transform, try_except, transform_try.
  destruct o as [df|]; cbn; [|discriminate].
  unfold dropna, getitem, positions. cbn.
  destruct (positions_from 0 (py "price") (columns df)) as [|pp [|pp' ps]] eqn:Hp;
    cbn; [discriminate| |].
  - destruct (positions_from 0 (py "quantity") (columns df)) as [|pq [|pq' qs]] eqn:Hq;
      cbn; rewrite ?Hp; cbn; [discriminate| |discriminate].
    rewrite (filter_ext (fun r => negb (isnull (cell_at pp r)) && true)
                        (fun r => negb (isnull (cell_at pp r))))
      by (intros r; apply Bool.andb_true_r).
    fold (surviving pp df).
    destruct (cells_mul (map (cell_at pq) (surviving pp df))
                        (map (cell_at pp) (surviving pp df))) as [tr|e] eqn:Hm;
      cbn; [|discriminate].
    unfold lift.
    destruct (setitem {| columns := columns df; rows := surviving pp df |}
                      (py "total_revenue") tr) as [d|e] eqn:Hs; cbn; [|discriminate].
    intros H. injection H as _ <-.
    exists df, pq, pp, tr. repeat split; assumption.
  - destruct (positions_from 0 (py "quantity") (columns df)) as [|pq [|pq' qs]];
      cbn; rewrite ?Hp; cbn; discriminate.
Qed.

Lemma price_not_revenue : py "price" <> py "total_revenue".
Proof. intros H. vm_compute in H. discriminate. Qed.

Lemma quantity_not_revenue : py "quantity" <> py "total_revenue".
Proof. intros H. vm_compute in H. discriminate. Qed.

Lemma Forall2_and_left {A B} (P : A -> B -> Prop) (Q : A -> Prop) l l' :
  Forall2 P l l' -> Forall Q l -> Forall2 (fun a b => Q a /\ P a b) l l'.
Proof.
  induction 1; intros HQ; inversion HQ; subst; constructor; auto.
Qed.

Lemma Forall2_of_length {A B} (l : list A) : forall l' : list B,
  length l' = length l -> Forall2 (fun _ _ => True) l l'.
Proof.
  induction l as [|a l IH]; intros [|b l'] H; simpl in H; try discriminate;
    constructor; auto.
Qed.

Lemma surviving_rectangular pp df :
  rectangular df ->
  Forall (fun r => length (snd r) = length (columns df)) (surviving pp df).
Proof.
  unfold rectangular, surviving. rewrite !Forall_forall.
  intros H r Hr. apply filter_In in Hr as [Hr _]. now apply H.
Qed.

Lemma positions_label l (d : DataFrame) p :
  In p (positions l d) -> nth_error (columns d) p = Some l.
Proof.
  unfold positions. intros H. now apply positions_from_In in H as [k [-> Hk]].
Qed.

(** The three ways of [df[label] = values]. *)
Lemma setitem_cases (d : DataFrame) l values out :
  setitem d l values = Ok out ->
  (positions l d = [] /\
   out = {| columns := columns d ++ [l];
            rows := map (fun rv => (fst (fst rv), snd (fst rv) ++ [snd rv]))
                        (combine (rows d) values) |}) \/
  (positions l d <> [] /\
   (length (positions l d) <= 1 \/ length (positions l d) <> length values) /\
   out = {| columns := columns d;
            rows := map (fun rv => (fst (fst rv),
                                    assign l (snd rv) (columns d) (snd (fst rv))))
                        (combine (rows d) values) |}) \/
  (1 < length (positions l d) /\ length (positions l d) = length values /\
   exists rs, iset_each (map fst (rows d)) values 0 (positions l d) (rows d) = Ok rs /\
              out = {| columns := columns d; rows := rs |}).
Proof.
  unfold setitem. destruct (positions l d) as [|p ps] eqn:Hp.
  - intros H. injection H as <-. now left.
  - destruct (Nat.ltb 1 (length (p :: ps))) eqn:H1;
      [destruct (Nat.eqb (length (p :: ps)) (length values)) eqn:H2|];
      cbn [andb].
    + destruct (iset_each _ _ _ _ _) as [rs|e] eqn:Hi; [|discriminate].
      intros H. injection H as <-. right. right.
      apply Nat.ltb_lt in H1. apply Nat.eqb_eq in H2.
      split; [exact H1|]. split; [exact H2|]. now exists rs.
    + intros H. injection H as <-. right. left.
      apply Nat.eqb_neq in H2. split; [discriminate|]. split; [now right | reflexivity].
    + intros H. injection H as <-. right. left.
      apply Nat.ltb_ge in H1. split; [discriminate|]. split; [now left | reflexivity].
Qed.

Lemma setitem_columns (d : DataFrame) l values out :
  setitem d l values = Ok out ->
  columns out = match positions l d with [] => columns d ++ [l] | _ => columns d end.
Proof.
  intros H. apply setitem_cases in H as [[Hp ->]|[(Hp & _ & ->)|(Hp & _ & rs & _ & ->)]];
    cbn [columns]; destruct (positions l d); try reflexivity; try contradiction;
    try discriminate.
  cbn in Hp. lia.
Qed.

(** Row by row, what [df[label] = values] keeps of a rectangular frame: the
    index labels and the cells of the columns of other labels. *)
Lemma setitem_frame (d : DataFrame) (l : pystr) (values : list cell) out :
  rectangular d ->
  length values = length (rows d) ->
  setitem d l values = Ok out ->
  Forall2 (fun ro ri =>
             fst ro = fst ri /\
             forall j l', nth_error (columns d) j = Some l' -> l' <> l ->
                          cell_at j ro = cell_at j ri)
          (rows out) (rows d).
Proof.
  intros Hrect Hlen H.
  assert (HP : Forall2 (fun a (_ : cell) => length (snd a) = length (columns d) /\ True)
                       (rows d) values).
  { apply Forall2_and_left; [now apply Forall2_of_length | exact Hrect]. }
  apply setitem_cases in H as [[Hp ->]|[(Hp & _ & ->)|(Hp & _ & rs & Hi & ->)]];
    cbn [rows columns].
  - eapply Forall2_map_combine; [exact HP|].
    intros [i r] v [Hl _]. cbn [fst snd] in *. split; [reflexivity|].
    intros j l' Hj _. unfold cell_at. cbn [snd].
    apply app_nth1. rewrite Hl. apply nth_error_Some. congruence.
  - eapply Forall2_map_combine; [exact HP|].
    intros [i r] v [Hl _]. cbn [fst snd] in *. split; [reflexivity|].
    intros j l' Hj Hne. unfold cell_at. cbn [snd].
    apply assign_other. congruence.
  - apply iset_each_frame in Hi; [|now rewrite length_map].
    eapply Forall2_impl; [|exact Hi]. cbv beta.
    intros ro ri (Hf & _ & Hc). split; [exact Hf|].
    intros j l' Hj Hne. apply Hc. intros Hin.
    apply positions_label in Hin. congruence.
Qed.


Lemma setitem_positions (d : DataFrame) (l l' : pystr) values out :
  setitem d l values = Ok out ->
  l' <> l -> positions l' out = positions l' d.
Proof.
  intros H Hne. apply setitem_columns in H. unfold positions in *. rewrite H.
  destruct (positions_from 0 l (columns d)); [|reflexivity].
  rewrite positions_from_app. cbn.
  rewrite (pystr_eqb_neq (a:=l) (b:=l')) by congruence. apply app_nil_r.
Qed.

Lemma setitem_positions_self (d : DataFrame) (l : pystr) values out :
  setitem d l values = Ok out ->
  positions l out = match positions l d with
                    | [] => [length (columns d)]
                    | ps => ps
                    end.
Proof.
  intros H. apply setitem_columns in H. unfold positions in *. rewrite H.
  destruct (positions_from 0 l (columns d)) eqn:Hpos; [|exact Hpos].
  rewrite positions_from_app, Hpos. cbn. now rewrite pystr_eqb_refl.
Qed.

Lemma setitem_rectangular (d : DataFrame) l values out :
  rectangular d -> setitem d l values = Ok out -> rectangular out.
Proof.
  unfold rectangular. intros Hr H.
  apply setitem_cases in H as [[Hp ->]|[(Hp & _ & ->)|(Hp & _ & rs & Hi & ->)]];
    cbn [rows columns].
  - apply Forall_forall; intros r Hin.
    apply in_map_iff in Hin as [[[i cells] v] [<- Hin]].
    apply in_combine_l in Hin.
    rewrite Forall_forall in Hr; specialize (Hr _ Hin); cbn in *.
    rewrite !length_app. cbn. now rewrite Hr.
  - apply Forall_forall; intros r Hin.
    apply in_map_iff in Hin as [[[i cells] v] [<- Hin]].
    apply in_combine_l in Hin.
    rewrite Forall_forall in Hr; specialize (Hr _ Hin); cbn in *.
    now rewrite assign_length.
  - apply iset_each_frame in Hi; [|now rewrite length_map].
    induction Hi as [|ro ri lo li (_ & Hl & _) _ IH]; [constructor|].
    inversion Hr; subst. constructor; [congruence | now apply IH].
Qed.

(** Assigning the same values again changes nothing. *)
Lemma setitem_again (d : DataFrame) l values out :
  rectangular d ->
  setitem d l values = Ok out ->
  setitem out l values = Ok out.
Proof.
  intros Hr H.
  pose proof (@setitem_positions_self d l values out H) as Hps.
  pose proof H as Hc.
  apply setitem_cases in Hc as [[Hp ->]|[(Hp & Hk & ->)|(Hp & Hk & rs & Hi & ->)]].
  - rewrite Hp in Hps. unfold setitem. rewrite Hps. cbn [length Nat.ltb Nat.leb andb].
    cbn [columns rows]. f_equal. f_equal.
    unfold positions in Hp.
    assert (Hone : forall (r : list cell) v, length r = length (columns d) ->
                     assign l v (columns d ++ [l]) (r ++ [v]) = r ++ [v]).
    { intros r v Hl. apply assign_same; [rewrite !length_app; cbn; lia|].
      intros j Hj.
      assert (Hjl : j = length (columns d)).
      { destruct (Nat.lt_ge_cases j (length (columns d))) as [Hlt|Hge].
        - rewrite nth_error_app1 in Hj by exact Hlt.
          assert (Hin : In (0 + j) (positions_from 0 l (columns d)))
            by (apply positions_from_In; now exists j).
          now rewrite Hp in Hin.
        - assert (Hjb : j < length (columns d ++ [l]))
            by (apply nth_error_Some; congruence).
          rewrite length_app in Hjb. cbn in Hjb. lia. }
      subst j. rewrite <- Hl. apply nth_middle. }
    unfold rectangular in Hr. clear - Hr Hone. revert values.
    induction Hr as [|r rs Hl _ IH]; intros [|v vs]; cbn; try reflexivity.
    rewrite Hone by exact Hl. f_equal. apply IH.
  - destruct (positions l d) as [|p ps] eqn:Hpd; [contradiction|].
    unfold setitem. rewrite Hps. cbn [columns rows].
    replace (Nat.ltb 1 (length (p :: ps)) && Nat.eqb (length (p :: ps)) (length values))
      with false.
    2:{ symmetry. apply Bool.andb_false_iff. destruct Hk as [Hk|Hk].
        - left. now apply Nat.ltb_ge.
        - right. now apply Nat.eqb_neq. }
    f_equal. f_equal. clear. revert values.
    induction (rows d) as [|r rs IH]; intros [|v vs]; cbn; try reflexivity.
    now rewrite assign_twice, IH.
  - destruct (positions l d) as [|p ps] eqn:Hpd; [cbn in Hp; lia|].
    unfold setitem. rewrite Hps. cbn [columns rows].
    replace (Nat.ltb 1 (length (p :: ps)) && Nat.eqb (length (p :: ps)) (length values))
      with true.
    2:{ symmetry. apply Bool.andb_true_iff. split;
          [now apply Nat.ltb_lt | now apply Nat.eqb_eq]. }
    assert (Hidx : map fst rs = map fst (rows d)).
    { pose proof Hi as Hf. apply iset_each_frame in Hf; [|now rewrite length_map].
      clear - Hf. induction Hf as [|ro ri lo li (Hfst & _) _ IH]; cbn; congruence. }
    rewrite Hidx.
    rewrite (@iset_each_again _ (map fst (rows d)) values (p :: ps) 0 (rows d) rs);
      [reflexivity| |exact Hi].
    rewrite <- Hpd. apply positions_from_NoDup.
Qed.

(** Transform succeeds on a frame with one [price] and one [quantity]
    column, at most one column [total_revenue], and surviving rows whose
    operands Python can multiply. *)
Lemma transform_succeeds df w pq pp :
  positions (py "price") df = [pp] ->
  positions (py "quantity") df = [pq] ->
  length (positions (py "total_revenue") df) <= 1 ->
  Forall (fun r => exists c, cell_mul (cell_at pq r) (cell_at pp r) = Ok c)
         (surviving pp df) ->
  exists w' out, transform (Some df) w = (w', Ok (Some out)).
Proof.
  intros Hp Hq Hr Hmul.
  assert (Hm : exists tr, cells_mul (map (cell_at pq) (surviving pp df))
                                    (map (cell_at pp) (surviving pp df)) = Ok tr).
  { induction Hmul as [|r t [c Hc] _ [tr IH]]; cbn.
    - now exists [].
    - rewrite Hc, IH. now eexists. }
  destruct Hm as [tr Hm].
  assert (Hs : exists out, setitem {| columns := columns df; rows := surviving pp df |}
                                   (py "total_revenue") tr = Ok out).
  { unfold setitem.
    change (positions (py "total_revenue")
              {| columns := columns df; rows := surviving pp df |})
      with (positions (py "total_revenue") df).
    destruct (positions (py "total_revenue") df) as [|p [|p' ps]];
      cbn in Hr; [| |lia]; cbn [length Nat.ltb Nat.leb andb]; now eexists. }
  destruct Hs as [out Hs].
  unfold transform, try_except, transform_try. cbn.
  unfold dropna, getitem. rewrite Hp. cbn.
  unfold positions in Hq, Hp. cbn. rewrite Hq, Hp. cbn.
  assert (Hf : filter (fun r => negb (isnull (cell_at pp r)) && true) (rows df)
               = surviving pp df).
  { apply filter_ext. intros r. apply Bool.andb_true_r. }
  rewrite Hf, Hm. cbn. unfold lift. rewrite Hs. cbn. now eexists _, _.
Qed.

(** The rows of a successful transform against the surviving rows of its
    input, pairwise: the index labels and every input column other than
    [total_revenue] are kept. *)
Lemma transform_rows df w w' out :
  rectangular df ->
  transform (Some df) w = (w', Ok (Some out)) ->
  exists pq pp tr,
    positions (py "price") df = [pp] /\
    positions (py "quantity") df = [pq] /\
    positions (py "price") out = [pp] /\
    positions (py "quantity") out = [pq] /\
    cells_mul (map (cell_at pq) (surviving pp df))
              (map (cell_at pp) (surviving pp df)) = Ok tr /\
    setitem {| columns := columns df; rows := surviving pp df |}
            (py "total_revenue") tr = Ok out /\
    Forall2 (fun ro ri =>
               fst ro = fst ri /\
               forall j l', nth_error (columns df) j = Some l' ->
                            l' <> py "total_revenue" ->
                            cell_at j ro = cell_at j ri)
            (rows out) (surviving pp df).
Proof.
  intros Hrect H.
  apply transform_Some in H as (df' & pq & pp & tr & Hdf & Hp & Hq & Hm & Hs).
  injection Hdf as <-. exists pq, pp, tr.
  set (d := {| columns := columns df; rows := surviving pp df |}) in *.
  repeat split; try assumption.
  - rewrite (@setitem_positions d _ (py "price") tr out Hs price_not_revenue).
    exact Hp.
  - rewrite (@setitem_positions d _ (py "quantity") tr out Hs quantity_not_revenue).
    exact Hq.
  - apply (@setitem_frame d (py "total_revenue") tr out).
    + exact (surviving_rectangular pp Hrect).
    + apply cells_mul_map in Hm. symmetry. apply (Forall2_length Hm).
    + exact Hs.
Qed.

(** C6. When transform returns a table, no row of it has a null price, it has
    as many rows as the input has rows with a non-null price, and its rows
    are the surviving input rows in their input order: same index labels,
    same cells in every input column other than [total_revenue]. *)
Theorem transform_drops_null_price df w w' out :
  rectangular df ->
  transform (Some df) w = (w', Ok (Some out)) ->
  exists pp,
    positions (py "price") df = [pp] /\
    positions (py "price") out = [pp] /\
    Forall (fun r => isnull (cell_at pp r) = false) (rows out) /\
    length (rows out)
    = length (filter (fun r => negb (isnull (cell_at pp r))) (rows df)) /\
    Forall2 (fun ro ri =>
               fst ro = fst ri /\
               forall j l', nth_error (columns df) j = Some l' ->
                            l' <> py "total_revenue" ->
                            cell_at j ro = cell_at j ri)
            (rows out) (filter (fun r => negb (isnull (cell_at pp r))) (rows df)).
Proof.
  intros Hrect H.
  destruct (transform_rows w Hrect H)
    as (pq & pp & tr & Hp & Hq & Hp' & Hq' & _ & _ & Hrows).
  exists pp. fold (surviving pp df). repeat split; try assumption.
  - assert (Hs : Forall (fun r => isnull (cell_at pp r) = false) (surviving pp df)).
    { apply Forall_forall. intros r Hr'. apply filter_In in Hr' as [_ Hr'].
      now apply Bool.negb_true_iff. }
    assert (Hlab : nth_error (columns df) pp = Some (py "price")).
    { apply positions_label. rewrite Hp. now left. }
    clear - Hrows Hs Hlab. induction Hrows as [|ro ri lo li (_ & Hsame) _ IH].
    + constructor.
    + inversion Hs; subst. constructor; [|now apply IH].
      rewrite (Hsame pp _ Hlab price_not_revenue). assumption.
  - apply (Forall2_length Hrows).
Qed.


End TransformFacts.

Lemma sample_transform :
  transform (Some Sample.sales) Sample.blank
  = (logged Sample.blank
       [INFO (py "Transform started"); INFO (py "Transform succesfully")],
     Ok (Some Sample.transformed)).
Proof. vm_compute. reflexivity. Qed.

Lemma transform_drops_null_price_witness :
  exists pp,
    positions (py "price") Sample.sales = [pp] /\
    positions (py "price") Sample.transformed = [pp] /\
    Forall (fun r => isnull (cell_at pp r) = false) (rows Sample.transformed) /\
    length (rows Sample.transformed)
    = length (filter (fun r => negb (isnull (cell_at pp r))) (rows Sample.sales)) /\
    Forall2 (fun ro ri =>
               fst ro = fst ri /\
               forall j l', nth_error (columns Sample.sales) j = Some l' ->
                            l' <> py "total_revenue" ->
                            cell_at j ro = cell_at j ri)
            (rows Sample.transformed)
            (filter (fun r => negb (isnull (cell_at pp r))) (rows Sample.sales)).
Proof.
  eapply (transform_drops_null_price (df := Sample.sales) Sample.blank).
  - repeat constructor.
  - vm_compute. reflexivity.
Defined.


(** Within 64 bits the wrapped product is the product. *)
Lemma wrap_exact (z : Z) :
  (- 2 ^ 63 <= z < 2 ^ 63)%Z -> Int64.wrap z = z.
Proof.
  intros H. unfold Int64.wrap. rewrite Z.mod_small; lia.
Qed.

(** With 64-bit integers the runtime's product is the product when it fits. *)
Lemma int64_product_exact (x y : Z) :
  (- 2 ^ 63 <= x * y < 2 ^ 63)%Z -> @num_mul Int64.runtime x y = (x * y)%Z.
Proof. intros H. unfold num_mul, Int64.runtime. now apply wrap_exact. Qed.


(** The table above goes through transform unchanged a second time. *)
Example transform_twice_revenue_again :
  transform (Some Sample.twice_revenue_transformed) Sample.blank
  = (logged Sample.blank
       [INFO (py "Transform started"); INFO (py "Transform succesfully")],
     Ok (Some Sample.twice_revenue_transformed)).
Proof. vm_compute. reflexivity. Qed.

(** Rows 1 and 2 of a table with two columns [total_revenue], once the row 0
    is dropped for its null price: the first column asks for the value of
    index label 0, the KeyError is logged and transform returns [None]. *)
Example transform_twice_revenue_keyerror :
  transform (Some {| columns := columns Sample.twice_revenue;
                     rows := (0%Z, [Num 1%Z; Null; Null; Null])
                               :: map (fun r => (fst r + 1, snd r)%Z)
                                      (rows Sample.twice_revenue) |})
            Sample.blank
  = (logged Sample.blank
       [INFO (py "Transform started");
        ERROR (py "Transform failed, something went wrong: ") (KeyError (py "0"))],
     Ok None).
Proof. vm_compute. reflexivity. Qed.

(* ================================================================== *)
(** ** Theorems: normalization against its wording *)

Section Normalization.
Context {R : Runtime}.

Lemma ltrim_lstrip s : Worded.ltrim s = lstrip s.
Proof. induction s as [|c t IH]; simpl; [reflexivity|]. now rewrite IH. Qed.

Lemma lstrip_snoc a c :
  lstrip (a ++ [c])
  = match lstrip a with
    | [] => if isspace c then [] else [c]
    | r => r ++ [c]
    end.
Proof.
  induction a as [|x a IH]; simpl; [reflexivity|].
  destruct (isspace x); [exact IH | reflexivity].
Qed.

Lemma rtrim_rev s : Worded.rtrim s = rev (lstrip (rev s)).
Proof.
  induction s as [|c t IH]; simpl; [reflexivity|].
  rewrite lstrip_snoc, IH.
  destruct (lstrip (rev t)) as [|x r] eqn:Hl; simpl.
  - now destruct (isspace c).
  - rewrite rev_app_distr. simpl.
    destruct (rev r ++ [x]) eqn:Hr; [|reflexivity].
    now destruct (rev r).
Qed.

Lemma trim_strip s : Worded.trim s = strip s.
Proof. unfold Worded.trim, strip. now rewrite rtrim_rev, ltrim_lstrip. Qed.

Lemma remove_other_remove_special s : Worded.remove_other s = remove_special s.
Proof.
  unfold Worded.remove_other, remove_special. apply filter_ext. intros c.
  unfold kept, Worded.alphanumeric.
  now destruct (is_digit c), (is_lower c), (is_upper c), (isspace c),
    (c =? underscore)%N.
Qed.

Lemma collapse_runs_from s :
  collapse_from false s = Worded.collapse_runs s /\
  forall c, isspace c = true ->
            Worded.collapse_runs (c :: s) = underscore :: collapse_from true s.
Proof.
  induction s as [|a s [IH1 IH2]].
  - split; [reflexivity|]. intros c Hc. simpl. now rewrite Hc.
  - split.
    + cbn [collapse_from]. destruct (isspace a) eqn:Ha.
      * now rewrite IH2.
      * cbn [Worded.collapse_runs]. now rewrite Ha, IH1.
    + intros c Hc.
      change (Worded.collapse_runs (c :: a :: s))
        with (if isspace c
              then (if isspace a then Worded.collapse_runs (a :: s)
                    else underscore :: Worded.collapse_runs (a :: s))
              else c :: Worded.collapse_runs (a :: s)).
      cbn [collapse_from]. rewrite Hc. destruct (isspace a) eqn:Ha.
      * now rewrite IH2.
      * cbn [Worded.collapse_runs]. now rewrite Ha, IH1.
Qed.

(** [clean_column] is the normalization the specification words. *)
Lemma clean_column_worded ul (c : pystr) : clean_column ul c = Worded.normalize ul c.
Proof.
  unfold clean_column, Worded.normalize, collapse_spaces.
  rewrite trim_strip, remove_other_remove_special.
  apply collapse_runs_from.
Qed.

(** C4. Normalization gives every column the name obtained by trimming,
    lowercasing, removing what is neither alphanumeric, underscore nor
    whitespace, and collapsing whitespace runs to one underscore; the name
    " Transaction ID! " becomes "transaction_id"; the rows, their order and
    their cells are untouched. *)
Theorem standardize_column_names_correct (df : DataFrame) :
  columns (standardize_column_names df)
  = map (Worded.normalize unicode_lower) (columns df) /\
  rows (standardize_column_names df) = rows df /\
  clean_column unicode_lower (py " Transaction ID! ") = py "transaction_id".
Proof.
  split; [|split].
  - cbn. apply map_ext. intros c. apply clean_column_worded.
  - reflexivity.
  - vm_compute. reflexivity.
Qed.

End Normalization.

(* ================================================================== *)
(** ** Theorems: the stages and their exceptions *)

Section StageFacts.
Context {R : Runtime} {E : Engine}.

Lemma logged_logged (w : world) a b : logged (logged w a) b = logged w (a ++ b).
Proof. unfold logged, with_log. cbn. now rewrite app_assoc. Qed.

(** A stage never raises: what its [try] block raises is logged and the
    stage returns [None]. *)
Lemma try_except_None (body : M (option DataFrame)) msg w :
  try_except body (fun e => bind (logging_error msg e) (fun _ => ret None)) w
  = match body w with
    | (w1, Ok r) => (w1, Ok r)
    | (w1, Raise e) => (logged w1 [ERROR msg e], Ok None)
    end.
Proof.
  unfold try_except. destruct (body w) as [w1 [r|e]]; reflexivity.
Qed.

Lemma transform_None w :
  transform None w
  = (logged w [INFO (py "Transform started");
               ERROR (py "Transform failed, something went wrong: ") AttributeError],
     Ok None).
Proof.
  unfold transform. rewrite try_except_None. cbn.
  unfold logged, with_log. cbn. now rewrite <- app_assoc.
Qed.

Lemma load_None path w :
  load None path w
  = (logged w [INFO (py "Load started");
               ERROR (py "Load failed, something went wrong: ") AttributeError],
     Ok None).
Proof.
  unfold load. rewrite try_except_None. cbn.
  unfold logged, with_log. cbn. now rewrite <- app_assoc.
Qed.

Lemma main_chain w w1 r1 w2 r2 :
  extract (input_path w) w = (w1, Ok r1) ->
  transform r1 w1 = (w2, Ok r2) ->
  main w = load r2 (output_path w) w2.
Proof.
  intros H1 H2. unfold main, bind, getcwd.
  fold (input_path w). fold (output_path w). rewrite H1, H2.
  now destruct (load r2 (output_path w) w2) as [w3 [r3|e]].
Qed.

Lemma handled_returns (body : M (option DataFrame)) msg w :
  exists w1 r,
    try_except body (fun e => bind (logging_error msg e) (fun _ => ret None)) w
    = (w1, Ok r).
Proof.
  rewrite try_except_None. destruct (body w) as [w1 [r|e]]; now eexists _, _.
Qed.

Lemma extract_returns path w : exists w1 r, extract path w = (w1, Ok r).
Proof. apply handled_returns. Qed.

Lemma transform_returns o w : exists w1 r, transform o w = (w1, Ok r).
Proof. apply handled_returns. Qed.

Lemma load_returns o out w : exists w1 r, load o out w = (w1, Ok r).
Proof. apply handled_returns. Qed.

(** C8. Whatever a stage's [try] block raises is caught by the stage, which
    logs it and returns [None]; no stage raises; the entry point hands the
    result of a stage to the next stage as it is, so that after a failed
    extract both later stages run on [None] and fail in turn. *)
Theorem stage_failure_returns_none (w : world) (path out : pystr)
        (o : option DataFrame) :
  (forall w1 e, extract_try path w = (w1, Raise e) ->
     extract path w
     = (logged w1 [ERROR (py "Extract failed, something went wrong: ") e], Ok None)) /\
  (forall w1 e, transform_try o w = (w1, Raise e) ->
     transform o w
     = (logged w1 [ERROR (py "Transform failed, something went wrong: ") e], Ok None)) /\
  (forall w1 e, load_try o out w = (w1, Raise e) ->
     load o out w
     = (logged w1 [ERROR (py "Load failed, something went wrong: ") e], Ok None)) /\
  (exists w1 r, extract path w = (w1, Ok r)) /\
  (exists w1 r, transform o w = (w1, Ok r)) /\
  (exists w1 r, load o out w = (w1, Ok r)) /\
  (forall w1 r1 w2 r2,
     extract (input_path w) w = (w1, Ok r1) ->
     transform r1 w1 = (w2, Ok r2) ->
     main w = load r2 (output_path w) w2) /\
  (forall w1 e, extract_try (input_path w) w = (w1, Raise e) ->
     main w
     = (logged w1 [ERROR (py "Extract failed, something went wrong: ") e;
                   INFO (py "Transform started");
                   ERROR (py "Transform failed, something went wrong: ") AttributeError;
                   INFO (py "Load started");
                   ERROR (py "Load failed, something went wrong: ") AttributeError],
        Ok None)).
Proof.
  assert (Hex : forall p w1 e, extract_try p w = (w1, Raise e) ->
            extract p w
            = (logged w1 [ERROR (py "Extract failed, something went wrong: ") e],
               Ok None)).
  { intros p w1 e H. unfold extract. now rewrite try_except_None, H. }
  repeat split.
  - apply Hex.
  - intros w1 e H. unfold transform. now rewrite try_except_None, H.
  - intros w1 e H. unfold load. now rewrite try_except_None, H.
  - apply extract_returns.
  - apply transform_returns.
  - apply load_returns.
  - apply main_chain.
  - intros w1 e H. apply Hex in H.
    rewrite (main_chain _ H (transform_None _)).
    rewrite load_None, !logged_logged. reflexivity.
Qed.

End StageFacts.

Lemma stage_failure_returns_none_witness :
  extract_try (input_path Sample.blank) Sample.blank
  = (logged Sample.blank [INFO (py "Extract started")],
     Raise (FileNotFoundError (py "/srv/data/DE_daily_sales.csv"))) /\
  main Sample.blank
  = (logged (logged Sample.blank [INFO (py "Extract started")])
       [ERROR (py "Extract failed, something went wrong: ")
              (FileNotFoundError (py "/srv/data/DE_daily_sales.csv"));
        INFO (py "Transform started");
        ERROR (py "Transform failed, something went wrong: ") AttributeError;
        INFO (py "Load started");
        ERROR (py "Load failed, something went wrong: ") AttributeError],
     Ok None).
Proof.
  assert (H : extract_try (input_path Sample.blank) Sample.blank
              = (logged Sample.blank [INFO (py "Extract started")],
                 Raise (FileNotFoundError (py "/srv/data/DE_daily_sales.csv")))).
  { vm_compute. reflexivity. }
  split; [exact H|].
  exact (proj2 (proj2 (proj2 (proj2 (proj2 (proj2 (proj2
           (stage_failure_returns_none Sample.blank [] [] None))))))) _ _ H).
Defined.

(* ================================================================== *)
(** ** Theorems: load *)

Section LoadFacts.
Context {R : Runtime} {E : Engine}.

(** The frame load returns and the table it leaves, for every input and
    world: nothing happens to the table unless the file was written, the
    database opened and the merge went through. *)
Lemma load_outcome o path w :
  exists w',
    load o path w
    = (w', Ok (match o with
               | Some d =>
                   if writable w path && db_opens w
                   then match merge (table w) (reset_index d) with
                        | Ok _ => Some (reset_index d)
                        | Raise _ => None
                        end
                   else None
               | None => None
               end)) /\
    table w'
    = match o with
      | Some d =>
          if writable w path && db_opens w
          then match merge (table w) (reset_index d) with
               | Ok s' => s'
               | Raise _ => table w
               end
          else table w
      | None => table w
      end /\
    cwd w' = cwd w /\ writable w' = writable w /\ db_opens w' = db_opens w.
Proof.
  destruct o as [d|]; [|rewrite load_None; eexists; repeat split].
  unfold load. rewrite try_except_None. unfold load_try.
  unfold bind, to_csv, connect, create_table_if_not_exists,
    select_transaction_id, new_rows, insert_into_daily_sales, getcwd, close,
    ret, lift, raise, logging_info, merge, table. cbn.
  destruct (writable w path) eqn:Hw; cbn;
    [|eexists; repeat split; reflexivity].
  destruct (db_opens w) eqn:Ho; cbn;
    [|eexists; repeat split; cbn; auto].
  destruct (getitem (reset_index d) (py "transaction_id")) as [[ids|]|e];
    destruct (db w) as [s|] eqn:Hd; cbn; rewrite ?Hd; cbn;
    try (eexists; repeat split; cbn; rewrite ?Hd; auto; fail).
  - destruct (negb (empty _)); cbn; rewrite ?Hd; cbn;
      [destruct (insert s _); cbn|];
      eexists; repeat split; cbn; rewrite ?Hd; auto.
  - destruct (negb (empty _)); cbn;
      [destruct (insert [] _); cbn|];
      eexists; repeat split; cbn; rewrite ?Hd; auto.
Qed.

(** *** The table under insertion *)

Lemma mem_In k ks : mem k ks = true <-> In k ks.
Proof.
  unfold mem. rewrite existsb_exists. split.
  - intros [x [Hx Hk]]. apply pystr_eqb_eq in Hk. now subst.
  - intros H. exists k. split; [exact H | apply pystr_eqb_refl].
Qed.

Lemma mem_false k ks : mem k ks = false <-> ~ In k ks.
Proof.
  rewrite <- mem_In. destruct (mem k ks); split; congruence.
Qed.

Lemma keys_app (s t : store) : keys (s ++ t) = keys s ++ keys t.
Proof. apply map_app. Qed.

(** A successful append added one record per converted row, in order, with
    the converted key and fields, after the records already there. *)
Lemma append_Ok cs : forall s s',
  append s cs = Ok s' ->
  exists added,
    s' = s ++ added /\
    cs = map (fun r => (Some (transaction_id r), fields r)) added /\
    NoDup (keys added) /\
    forall k, In k (keys added) -> ~ In k (keys s).
Proof.
  induction cs as [|[[k|] f] cs IH]; intros s s' H; cbn in H.
  - injection H as <-. exists []. rewrite app_nil_r.
    repeat split; [constructor | intros k []].
  - destruct (mem k (keys s)) eqn:Hk; [discriminate|].
    apply mem_false in Hk.
    apply IH in H as (added & -> & -> & Hnd & Hfresh).
    exists ({| transaction_id := k; fields := f |} :: added).
    rewrite <- app_assoc. repeat split.
    + cbn. constructor; [|exact Hnd].
      intros Hin. apply (Hfresh k Hin). rewrite keys_app.
      apply in_or_app. right. now left.
    + intros k' [<-|Hin]; [exact Hk|].
      intros Hs. apply (Hfresh k' Hin). rewrite keys_app.
      apply in_or_app. now left.
  - discriminate.
Qed.

Lemma append_Raise cs : forall s e, append s cs = Raise e -> e = ConstraintException.
Proof.
  induction cs as [|[[k|] f] cs IH]; intros s e H; cbn in H.
  - discriminate.
  - destruct (mem k (keys s)); [congruence | eauto].
  - congruence.
Qed.

Lemma NoDup_keys_app (s added : store) :
  NoDup (keys s) -> NoDup (keys added) ->
  (forall k, In k (keys added) -> ~ In k (keys s)) ->
  NoDup (keys (s ++ added)).
Proof.
  intros Hs Ha Hd. rewrite keys_app.
  induction (keys s) as [|k ks IH]; cbn; [exact Ha|].
  inversion Hs; subst. constructor.
  - intros Hin. apply in_app_or in Hin as [Hin|Hin]; [contradiction|].
    apply (Hd k Hin). now left.
  - apply IH; [assumption|]. intros k' Hk' Hin. apply (Hd k' Hk'). now right.
Qed.

Lemma convert_all_In rs : forall cs r,
  convert_all rs = Ok cs -> In r rs ->
  exists c, convert r = Ok c /\ In c cs.
Proof.
  induction rs as [|a rs IH]; intros cs r H Hin; [destruct Hin|].
  cbn in H. destruct (convert a) as [c|e] eqn:Hc; [|discriminate].
  destruct (convert_all rs) as [cs'|e] eqn:Hcs; [|discriminate].
  injection H as <-. destruct Hin as [<-|Hin].
  - exists c. split; [exact Hc | now left].
  - destruct (IH _ _ eq_refl Hin) as [c' [Hc' Hin']].
    exists c'. split; [exact Hc' | now right].
Qed.

(** A successful insert only appends, keeps the keys distinct, and stored
    every row of the frame under the key its first column converts to. *)
Lemma insert_Ok s nd s' :
  insert s nd = Ok s' ->
  exists added,
    s' = s ++ added /\
    (NoDup (keys s) -> NoDup (keys s')) /\
    forall r, In r (rows nd) ->
      exists k f, convert (snd r) = Ok (Some k, f) /\ In k (keys added).
Proof.
  unfold insert. destruct (Nat.eqb _ 6); [|discriminate].
  destruct (convert_all (map snd (rows nd))) as [cs|e] eqn:Hcs; [|discriminate].
  intros H. apply append_Ok in H as (added & -> & -> & Hnd & Hfresh).
  exists added. split; [reflexivity|]. split.
  - intros Hs. now apply NoDup_keys_app.
  - intros r Hr.
    destruct (convert_all_In _ (snd r) Hcs) as [c [Hc Hin]];
      [now apply in_map|].
    apply in_map_iff in Hin as [rec [<- Hrec]].
    exists (transaction_id rec), (fields rec). split; [exact Hc|].
    now apply in_map.
Qed.

(** *** The merge *)

Lemma select_rows_filter {A} (h : A -> bool) (l : list A) :
  map fst (filter snd (combine l (map h l))) = filter h l.
Proof.
  induction l as [|a l IH]; cbn; [reflexivity|].
  destruct (h a); cbn; now rewrite IH.
Qed.

Lemma merge_unfold s df :
  merge s df
  = match positions (py "transaction_id") df with
    | [] => Raise (KeyError (py "transaction_id"))
    | [p] => if negb (empty (fresh p s df)) then insert s (fresh p s df) else Ok s
    | _ => Raise ValueError
    end.
Proof.
  unfold merge, getitem.
  destruct (positions (py "transaction_id") df) as [|p [|p' ps]]; try reflexivity.
  unfold select_rows, fresh. rewrite map_map.
  now rewrite (select_rows_filter (fun r => negb (isin (cell_at p r) (keys s)))).
Qed.

(** The merge only appends, and keeps the keys distinct. *)
Lemma merge_Ok s df s' :
  merge s df = Ok s' ->
  exists added, s' = s ++ added /\ (NoDup (keys s) -> NoDup (keys s')).
Proof.
  rewrite merge_unfold.
  destruct (positions (py "transaction_id") df) as [|p [|p' ps]]; try discriminate.
  destruct (negb (empty (fresh p s df))).
  - intros H. apply insert_Ok in H as (added & -> & Hnd & _). now exists added.
  - intros H. injection H as <-. exists []. now rewrite app_nil_r.
Qed.

Lemma isin_mono c (s added : store) :
  isin c (keys (s ++ added)) = false -> isin c (keys s) = false.
Proof.
  destruct c as [| |k]; cbn; try reflexivity.
  rewrite !mem_false, keys_app. intros H Hin. apply H, in_or_app. now left.
Qed.

(** After a merge that went through, a second merge of the same frame
    changes nothing: it finds no new row, or its insert is refused. *)
Lemma merge_again s df s1 s2 :
  merge s df = Ok s1 -> merge s1 df = Ok s2 -> s2 = s1.
Proof.
  rewrite !merge_unfold.
  destruct (positions (py "transaction_id") df) as [|p [|p' ps]]; try discriminate.
  destruct (negb (empty (fresh p s df))) eqn:He.
  - intros H1. apply insert_Ok in H1 as (added & -> & _ & Hstored).
    destruct (negb (empty (fresh p (s ++ added) df))) eqn:He2;
      [|intros H; now injection H].
    intros H2. exfalso.
    destruct (rows (fresh p (s ++ added) df)) as [|r rest] eqn:Hrows.
    { unfold empty in He2. now rewrite Hrows in He2. }
    assert (Hr : In r (rows (fresh p (s ++ added) df))) by (rewrite Hrows; now left).
    cbn in Hr. apply filter_In in Hr as [Hr Hnew].
    apply Bool.negb_true_iff in Hnew.
    destruct (Hstored r) as (k & f & Hc & Hk).
    { cbn. apply filter_In. split; [exact Hr|].
      apply Bool.negb_true_iff. eapply isin_mono, Hnew. }
    unfold insert in H2. destruct (Nat.eqb _ 6); [|discriminate].
    rewrite Hrows in H2. cbn in H2. rewrite Hc in H2.
    destruct (convert_all (map snd rest)); [|discriminate].
    cbn in H2.
    assert (Hm : mem k (keys (s ++ added)) = true).
    { apply mem_In. rewrite keys_app. apply in_or_app. now right. }
    rewrite Hm in H2. discriminate.
  - intros H1. injection H1 as <-. rewrite He. intros H; now injection H.
Qed.

(** *** One load, and sequences of runs *)

Lemma load_append_only o path w :
  exists added,
    table (fst (load o path w)) = table w ++ added /\
    (NoDup (keys (table w)) -> NoDup (keys (table (fst (load o path w))))).
Proof.
  destruct (load_outcome o path w) as (w' & Hl & Ht & _). rewrite Hl. cbn [fst].
  assert (Hsame : exists added, table w = table w ++ added /\
                    (NoDup (keys (table w)) -> NoDup (keys (table w)))).
  { exists []. now rewrite app_nil_r. }
  rewrite Ht. destruct o as [d|]; [|exact Hsame].
  destruct (writable w path && db_opens w); [|exact Hsame].
  destruct (merge (table w) (reset_index d)) as [s'|e] eqn:Hm; [|exact Hsame].
  now apply merge_Ok in Hm.
Qed.

Lemma extract_table path w : table (fst (extract path w)) = table w.
Proof.
  unfold extract. rewrite try_except_None.
  unfold extract_try, bind, read_csv, logging_info, ret. cbn.
  destruct (lookup path (files w)) as [[h rs|]|]; reflexivity.
Qed.

Lemma transform_table o w : table (fst (transform o w)) = table w.
Proof.
  unfold transform. rewrite try_except_None.
  unfold transform_try, bind, method_of, lift, logging_info, ret, raise. cbn.
  destruct o as [d|]; cbn; [|reflexivity].
  destruct (dropna d (py "price")) as [d1|e]; cbn; [|reflexivity].
  destruct (getitem d1 (py "quantity")) as [q|e]; cbn; [|reflexivity].
  destruct (getitem d1 (py "price")) as [p|e]; cbn; [|reflexivity].
  destruct (mul q p) as [t|e]; cbn; [|reflexivity].
  destruct (setitem d1 (py "total_revenue") t) as [d2|e]; reflexivity.
Qed.

Lemma main_is_a_load w :
  exists o path w2, main w = load o path w2 /\ table w2 = table w.
Proof.
  destruct (extract_returns (input_path w) w) as (w1 & r1 & H1).
  destruct (transform_returns r1 w1) as (w2 & r2 & H2).
  exists r2, (output_path w), w2. split.
  - now apply main_chain with (w1 := w1) (r1 := r1).
  - transitivity (table w1).
    + change w2 with (fst (w2, Ok r2 : result (option DataFrame))).
      rewrite <- H2. apply transform_table.
    + change w1 with (fst (w1, Ok r1 : result (option DataFrame))).
      rewrite <- H1. apply extract_table.
Qed.

Lemma run_pipeline_append_only input w :
  exists added,
    table (run_pipeline input w) = table w ++ added /\
    (NoDup (keys (table w)) -> NoDup (keys (table (run_pipeline input w)))).
Proof.
  unfold run_pipeline.
  destruct (main_is_a_load (deliver input w)) as (o & path & w2 & -> & Ht).
  assert (Hd : table (deliver input w) = table w) by now destruct input.
  rewrite <- Hd, <- Ht. apply load_append_only.
Qed.

Lemma run_all_append_only inputs : forall w,
  exists added,
    table (run_all inputs w) = table w ++ added /\
    (NoDup (keys (table w)) -> NoDup (keys (table (run_all inputs w)))).
Proof.
  induction inputs as [|input later IH]; intros w; cbn [run_all].
  - exists []. now rewrite app_nil_r.
  - destruct (run_pipeline_append_only input w) as (a1 & H1 & N1).
    destruct (IH (run_pipeline input w)) as (a2 & H2 & N2).
    exists (a1 ++ a2). split; [|auto].
    now rewrite H2, H1, app_assoc.
Qed.

(** C3. Through every sequence of pipeline runs, and through every single
    load, the keys of the table stay pairwise distinct and the table only
    grows at its end: the records it held are still there, unchanged and in
    their places. *)
Theorem store_invariant_append_only (inputs : list (option file)) (w : world) :
  NoDup (keys (table w)) ->
  NoDup (keys (table (run_all inputs w))) /\
  (exists added, table (run_all inputs w) = table w ++ added) /\
  (forall i r, nth_error (table w) i = Some r ->
               nth_error (table (run_all inputs w)) i = Some r) /\
  (forall o path,
     NoDup (keys (table (fst (load o path w)))) /\
     exists added, table (fst (load o path w)) = table w ++ added).
Proof.
  intros Hnd.
  destruct (run_all_append_only inputs w) as (added & Ht & Hn).
  split; [auto|]. split; [now exists added|]. split.
  - intros i r Hi. rewrite Ht. rewrite nth_error_app1; [exact Hi|].
    apply nth_error_Some. congruence.
  - intros o path. destruct (load_append_only o path w) as (a & Ha & Hna).
    split; [auto | now exists a].
Qed.

Lemma number_rows_snd (rs : list (list cell)) : map snd (number_rows rs) = rs.
Proof.
  unfold number_rows.
  assert (H : forall (idx : list Z), length idx = length rs ->
                                     map snd (combine idx rs) = rs).
  { induction rs as [|r rs IH]; intros [|i idx] Hl; cbn in *;
      try discriminate; try reflexivity.
    now rewrite IH by lia. }
  apply H. now rewrite length_map, length_seq.
Qed.

Lemma number_rows_fst (rs : list (list cell)) :
  map fst (number_rows rs) = map Z.of_nat (seq 0 (length rs)).
Proof.
  unfold number_rows.
  assert (H : forall (idx : list Z), length idx = length rs ->
                                     map fst (combine idx rs) = idx).
  { induction rs as [|r rs IH]; intros [|i idx] Hl; cbn in *;
      try discriminate; try reflexivity.
    now rewrite IH by lia. }
  apply H. now rewrite length_map, length_seq.
Qed.

(** C9. The table load returns holds the rows of the table it was given, in
    their order and with their cells, under the same columns in the same
    order; its index labels are 0, 1, 2, ... *)
Theorem load_returns_its_input o path w w' r :
  load o path w = (w', Ok (Some r)) ->
  exists d,
    o = Some d /\
    columns r = columns d /\
    map snd (rows r) = map snd (rows d) /\
    map fst (rows r) = map Z.of_nat (seq 0 (length (rows d))).
Proof.
  intros H. destruct (load_outcome o path w) as (w0 & Hl & _).
  rewrite Hl in H. injection H as _ H.
  destruct o as [d|]; [|discriminate]. exists d.
  destruct (writable w path && db_opens w); [|discriminate].
  destruct (merge (table w) (reset_index d)); [|discriminate].
  injection H as <-. repeat split.
  - apply number_rows_snd.
  - cbn. now rewrite number_rows_fst, length_map.
Qed.

Lemma convert_key (cells : list cell) k c :
  nth 0 cells Null = Str k -> convert cells = Ok c -> fst c = Some k.
Proof.
  destruct cells as [|c0 rest]; cbn; [discriminate|].
  intros ->. destruct (cast_fields rest); [|discriminate].
  intros H. now injection H as <-.
Qed.

Lemma positions_nonempty_columns l (d : DataFrame) p :
  positions l d = [p] -> columns d <> [].
Proof. unfold positions. now destruct (columns d). Qed.

(** After a merge that went through, every text id of the frame is a key of
    the table, when [transaction_id] is the first column as in the table. *)
Lemma merge_stores_ids s d s1 cells k :
  merge s d = Ok s1 ->
  positions (py "transaction_id") d = [0] ->
  In cells (map snd (rows d)) ->
  nth 0 cells Null = Str k ->
  In k (keys s1).
Proof.
  rewrite merge_unfold. intros Hm Hpos Hin Hk. rewrite Hpos in Hm.
  apply in_map_iff in Hin as [r [<- Hr]].
  destruct (isin (cell_at 0 r) (keys s)) eqn:Hold.
  - (* already a key *)
    assert (Hs : In k (keys s)).
    { unfold cell_at in Hold. rewrite Hk in Hold. now apply mem_In. }
    destruct (negb (empty (fresh 0 s d))).
    + apply insert_Ok in Hm as (added & -> & _).
      rewrite keys_app. apply in_or_app. now left.
    + now injection Hm as <-.
  - (* a new row *)
    assert (Hf : In r (rows (fresh 0 s d))).
    { cbn. apply filter_In. split; [exact Hr|]. now rewrite Hold. }
    destruct (negb (empty (fresh 0 s d))) eqn:He.
    + apply insert_Ok in Hm as (added & -> & _ & Hstored).
      destruct (Hstored r Hf) as (k' & f & Hc & Hk').
      apply (convert_key _ Hk) in Hc. cbn in Hc. injection Hc as ->.
      rewrite keys_app. apply in_or_app. now right.
    + exfalso. apply Bool.negb_false_iff in He. unfold empty in He.
      destruct (rows (fresh 0 s d)); [destruct Hf|].
      cbn [columns fresh] in He.
      pose proof (positions_nonempty_columns _ _ Hpos).
      now destruct (columns d).
Qed.

(** C2. A second load of the same table against the same store inserts no
    row: the table is the one the first load left. Its keys are pairwise
    distinct if they were before; and when the first load succeeded on a
    table whose first column is [transaction_id], every text id of that
    table is the key of exactly one record. *)
Theorem load_twice_inserts_nothing (o : option DataFrame) (path : pystr) (w : world) :
  NoDup (keys (table w)) ->
  let w1 := fst (load o path w) in
  let w2 := fst (load o path w1) in
  table w2 = table w1 /\
  NoDup (keys (table w2)) /\
  forall d cells k,
    o = Some d ->
    snd (load o path w) = Ok (Some (reset_index d)) ->
    positions (py "transaction_id") d = [0] ->
    In cells (map snd (rows d)) ->
    nth 0 cells Null = Str k ->
    count_occ (list_eq_dec N.eq_dec) (keys (table w2)) k = 1.
Proof.
  intros Hnd w1 w2.
  destruct (load_outcome o path w) as (w1' & Hl1 & Ht1 & _ & Hw1 & Ho1).
  assert (E1 : w1 = w1') by (unfold w1; now rewrite Hl1).
  destruct (load_outcome o path w1') as (w2' & Hl2 & Ht2 & _).
  assert (E2 : w2 = w2') by (unfold w2; rewrite E1; now rewrite Hl2).
  rewrite E1, E2. clear E1 E2 w1 w2.
  assert (Hsame : table w2' = table w1').
  { rewrite Ht2. destruct o as [d|]; [|reflexivity].
    rewrite Hw1, Ho1.
    destruct (writable w path && db_opens w); [|reflexivity].
    rewrite Ht1.
    destruct (merge (table w) (reset_index d)) as [s1|e] eqn:Hm1.
    - destruct (merge s1 (reset_index d)) as [s2|e] eqn:Hm2; [|reflexivity].
      eapply merge_again; eassumption.
    - now rewrite Hm1. }
  assert (Hnd1 : NoDup (keys (table w1'))).
  { destruct (load_append_only o path w) as (a & _ & Hn).
    rewrite Hl1 in Hn. now apply Hn. }
  split; [exact Hsame|]. rewrite Hsame. split; [exact Hnd1|].
  intros d cells k -> Hok Hpos Hin Hk.
  apply NoDup_count_occ'; [exact Hnd1|].
  rewrite Hl1 in Hok. cbn in Hok. rewrite Ht1.
  destruct (writable w path && db_opens w); [|discriminate].
  destruct (merge (table w) (reset_index d)) as [s1|e] eqn:Hm1; [|discriminate].
  eapply merge_stores_ids with (d := reset_index d) (cells := cells); [exact Hm1| | |].
  - exact Hpos.
  - cbn. now rewrite number_rows_snd.
  - exact Hk.
Qed.

(** *** A batch that repeats an id *)

Lemma filter_snd_combine {A B} (P : B -> bool) (cs : list B) : forall (idx : list A),
  length idx = length cs ->
  map snd (filter (fun r => P (snd r)) (combine idx cs)) = filter P cs.
Proof.
  induction cs as [|c cs IH]; intros [|i idx] Hl; cbn in *;
    try discriminate; try reflexivity.
  destruct (P c); cbn; now rewrite IH by lia.
Qed.

Lemma fresh_cells p s d :
  map snd (rows (fresh p s (reset_index d)))
  = filter (fun cells => negb (isin (nth p cells Null) (keys s))) (map snd (rows d)).
Proof.
  cbn. unfold number_rows.
  apply (filter_snd_combine (fun cells => negb (isin (nth p cells Null) (keys s)))).
  now rewrite length_map, length_seq.
Qed.

Lemma convert_all_Forall2 rs : forall cs,
  convert_all rs = Ok cs -> Forall2 (fun r c => convert r = Ok c) rs cs.
Proof.
  induction rs as [|r rs IH]; intros cs H; cbn in H.
  - injection H as <-. constructor.
  - destruct (convert r) as [c|e] eqn:Hc; [|discriminate].
    destruct (convert_all rs) as [cs'|e]; [|discriminate].
    injection H as <-. constructor; auto.
Qed.

Lemma convert_all_total rs :
  (forall r, In r rs -> exists c, convert r = Ok c) ->
  exists cs, convert_all rs = Ok cs.
Proof.
  induction rs as [|r rs IH]; intros H; cbn.
  - now exists [].
  - destruct (H r (or_introl eq_refl)) as [c ->].
    destruct IH as [cs ->]; [intros r' Hr'; apply H; now right|].
    now eexists.
Qed.

Lemma append_distinct s cs s' : append s cs = Ok s' -> NoDup (map fst cs).
Proof.
  intros H. apply append_Ok in H as (added & _ & -> & Hnd & _).
  rewrite map_map. cbn. unfold keys in Hnd. clear - Hnd.
  induction added as [|r added IH]; cbn in *; [constructor|].
  inversion Hnd; subst. constructor; [|auto].
  intros Hin. apply in_map_iff in Hin as [r' [Heq Hin]].
  injection Heq as Heq. rewrite <- Heq in *. now apply H1, in_map.
Qed.

Lemma twice_not_distinct {A} (x : A) (a b c : list A) :
  ~ NoDup (a ++ x :: b ++ x :: c).
Proof.
  intros H. apply NoDup_remove_2 in H. apply H.
  apply in_or_app. right. apply in_or_app. right. now left.
Qed.

Lemma schema_transaction_id (d : DataFrame) :
  columns d = schema -> positions (py "transaction_id") (reset_index d) = [0].
Proof. unfold positions. cbn. intros ->. vm_compute. reflexivity. Qed.

(** The error a failed merge leaves in the log. *)
Lemma load_merge_error d path w e :
  writable w path = true -> db_opens w = true ->
  merge (table w) (reset_index d) = Raise e ->
  exists l, log (fst (load (Some d) path w))
            = l ++ [ERROR (py "Load failed, something went wrong: ") e].
Proof.
  intros Hw Ho. unfold load. rewrite try_except_None. unfold load_try.
  unfold bind, to_csv, connect, create_table_if_not_exists,
    select_transaction_id, new_rows, insert_into_daily_sales, getcwd, close,
    ret, lift, raise, logging_info, merge, table, method_of. cbn.
  rewrite Hw. cbn. rewrite Ho. cbn.
  destruct (getitem (reset_index d) (py "transaction_id")) as [[ids|]|e'];
    destruct (db w) as [s|] eqn:Hd; cbn; rewrite ?Hd; cbn;
    try (intros H; injection H as <-; eexists; reflexivity).
  - destruct (negb (empty _)); cbn; rewrite ?Hd; cbn; [|discriminate].
    destruct (insert s _); cbn; [discriminate|].
    intros H; injection H as <-; eexists; reflexivity.
  - destruct (negb (empty _)); cbn; [|discriminate].
    destruct (insert [] _); cbn; [discriminate|].
    intros H; injection H as <-; eexists; reflexivity.
Qed.

(** C10. A batch with the columns of the table, whose values convert, and in
    which two rows carry the same id that is no key yet: both rows are in
    the new batch, the insert is refused by the primary key, load logs that
    exception and returns [None], and the table is as it was. *)
Theorem duplicate_ids_in_batch (d : DataFrame) (path : pystr) (w : world)
        (k : pystr) (before between after : list (list cell)) (f1 f2 : list cell) :
  columns d = schema ->
  map snd (rows d) = before ++ (Str k :: f1) :: between ++ (Str k :: f2) :: after ->
  ~ In k (keys (table w)) ->
  (forall cells, In cells (map snd (rows d)) -> exists c, convert cells = Ok c) ->
  writable w path = true ->
  db_opens w = true ->
  let new_data := fresh 0 (table w) (reset_index d) in
  (exists b m a,
      map snd (rows new_data) = b ++ (Str k :: f1) :: m ++ (Str k :: f2) :: a) /\
  insert (table w) new_data = Raise ConstraintException /\
  exists w' l,
    load (Some d) path w = (w', Ok None) /\
    table w' = table w /\
    log w' = l ++ [ERROR (py "Load failed, something went wrong: ")
                         ConstraintException].
Proof.
  intros Hcols Hrows Hnew Hconv Hw Ho new_data.
  set (keep := fun cells : list cell => negb (isin (nth 0 cells Null) (keys (table w)))).
  assert (Hk : forall f, keep (Str k :: f) = true).
  { intros f. unfold keep. cbn. apply Bool.negb_true_iff. now apply mem_false. }
  assert (Hcells : map snd (rows new_data)
                   = filter keep before ++ (Str k :: f1)
                       :: filter keep between ++ (Str k :: f2) :: filter keep after).
  { unfold new_data. rewrite fresh_cells, Hrows. fold keep.
    rewrite filter_app. cbn. rewrite Hk, filter_app. cbn. now rewrite Hk. }
  assert (Hins : insert (table w) new_data = Raise ConstraintException).
  { unfold insert. change (columns new_data) with (columns d). rewrite Hcols.
    change (Nat.eqb (length schema) 6) with true. cbv iota.
    destruct (convert_all_total (map snd (rows new_data))) as [cs Hcs].
    { intros r Hr. apply Hconv. unfold new_data in Hr.
      rewrite fresh_cells in Hr. now apply filter_In in Hr as [Hr _]. }
    rewrite Hcs.
    destruct (append (table w) cs) as [s'|e] eqn:Ha;
      [|now rewrite (append_Raise _ _ Ha)].
    exfalso. apply append_distinct in Ha.
    apply convert_all_Forall2 in Hcs. rewrite Hcells in Hcs.
    apply Forall2_app_inv_l in Hcs as (c1 & c2 & _ & Hcs & ->).
    inversion Hcs as [|? x ? c3 Hx Hcs']; subst.
    apply Forall2_app_inv_l in Hcs' as (c4 & c5 & _ & Hcs' & ->).
    inversion Hcs' as [|? y ? c6 Hy _]; subst.
    apply (convert_key (Str k :: f1) eq_refl) in Hx.
    apply (convert_key (Str k :: f2) eq_refl) in Hy.
    rewrite map_app in Ha. cbn in Ha. rewrite map_app in Ha. cbn in Ha.
    rewrite Hx, Hy in Ha. now apply twice_not_distinct in Ha. }
  assert (Hm : merge (table w) (reset_index d) = Raise ConstraintException).
  { rewrite merge_unfold, (schema_transaction_id _ Hcols). fold new_data.
    assert (He : empty new_data = false).
    { unfold empty. change (columns new_data) with (columns d). rewrite Hcols.
      destruct (rows new_data) eqn:Hr; [|reflexivity].
      cbn in Hcells. now destruct (filter keep before). }
    now rewrite He. }
  split; [eexists _, _, _; exact Hcells|]. split; [exact Hins|].
  destruct (load_outcome (Some d) path w) as (w' & Hl & Ht & _).
  rewrite Hw, Ho, Hm in Hl, Ht. cbn in Hl, Ht.
  destruct (@load_merge_error d path w _ Hw Ho Hm) as [l Hlog].
  rewrite Hl in Hlog. exists w', l. repeat split; assumption.
Qed.

(** *** Two batches, end to end *)

Lemma reset_index_sales_frame rs : reset_index (sales_frame rs) = sales_frame rs.
Proof. unfold reset_index, sales_frame. cbn. now rewrite number_rows_snd. Qed.

Lemma sales_frame_transaction_id rs :
  positions (py "transaction_id") (sales_frame rs) = [0].
Proof. unfold positions. cbn [columns sales_frame]. vm_compute. reflexivity. Qed.

Lemma load_merged d path w s' :
  writable w path = true -> db_opens w = true ->
  merge (table w) (reset_index d) = Ok s' ->
  exists w', load (Some d) path w = (w', Ok (Some (reset_index d))) /\
             table w' = s' /\
             writable w' = writable w /\ db_opens w' = db_opens w.
Proof.
  intros Hw Ho Hm.
  destruct (load_outcome (Some d) path w) as (w' & Hl & Ht & _ & Hw' & Ho').
  rewrite Hw, Ho, Hm in Hl, Ht. cbn in Hl, Ht. now exists w'.
Qed.

(** C1. From an empty table, loading a batch with the ids [A], [B] leaves
    exactly the records of [A] and [B]; loading then a batch with the ids
    [B], [C] leaves exactly the records of [A], [B] and [C], the record of
    [B] being the one of the first batch. *)
Theorem merge_end_to_end (A B C : pystr) (fa fb fb' fc ga gb gc : list cell)
        (path : pystr) (w : world) :
  A <> B -> B <> C -> A <> C ->
  cast_fields fa = Some ga ->
  cast_fields fb = Some gb ->
  cast_fields fc = Some gc ->
  writable w path = true ->
  db_opens w = true ->
  table w = [] ->
  let batch1 := sales_frame [Str A :: fa; Str B :: fb] in
  let batch2 := sales_frame [Str B :: fb'; Str C :: fc] in
  exists w1 w2,
    load (Some batch1) path w = (w1, Ok (Some batch1)) /\
    table w1 = [ {| transaction_id := A; fields := ga |};
                 {| transaction_id := B; fields := gb |} ] /\
    load (Some batch2) path w1 = (w2, Ok (Some batch2)) /\
    table w2 = [ {| transaction_id := A; fields := ga |};
                 {| transaction_id := B; fields := gb |};
                 {| transaction_id := C; fields := gc |} ].
Proof.
  intros HAB HBC HAC Ha Hb Hc Hw Ho Hempty batch1 batch2.
  assert (HBA : pystr_eqb B A = false) by (apply pystr_eqb_neq; congruence).
  assert (HCA : pystr_eqb C A = false) by (apply pystr_eqb_neq; congruence).
  assert (HCB : pystr_eqb C B = false) by (apply pystr_eqb_neq; congruence).
  assert (H1 : merge (table w) (reset_index batch1)
               = Ok [ {| transaction_id := A; fields := ga |};
                      {| transaction_id := B; fields := gb |} ]).
  { unfold batch1. rewrite reset_index_sales_frame, merge_unfold,
      sales_frame_transaction_id, Hempty.
    unfold insert. cbn. rewrite Ha, Hb. cbn. now rewrite HBA. }
  destruct (@load_merged batch1 path w _ Hw Ho H1) as (w1 & Hl1 & Ht1 & Hw1 & Ho1).
  assert (H2 : merge (table w1) (reset_index batch2)
               = Ok [ {| transaction_id := A; fields := ga |};
                      {| transaction_id := B; fields := gb |};
                      {| transaction_id := C; fields := gc |} ]).
  { unfold batch2. rewrite reset_index_sales_frame, merge_unfold,
      sales_frame_transaction_id, Ht1.
    unfold fresh, empty, insert. cbn.
    rewrite HBA, pystr_eqb_refl, HCA, HCB. cbn.
    rewrite Hc. cbn. now rewrite HCA, HCB. }
  assert (Hw1' : writable w1 path = true) by now rewrite Hw1.
  assert (Ho1' : db_opens w1 = true) by now rewrite Ho1.
  destruct (@load_merged batch2 path w1 _ Hw1' Ho1' H2) as (w2 & Hl2 & Ht2 & _).
  exists w1, w2. unfold batch1, batch2 in *.
  rewrite reset_index_sales_frame in Hl1, Hl2. repeat split; assumption.
Qed.

End LoadFacts.

(* ================================================================== *)
(** ** The theorems at concrete inputs *)

Lemma text_neq_A_B : py "A" <> py "B".
Proof. intros H. vm_compute in H. discriminate. Qed.

Lemma text_neq_B_C : py "B" <> py "C".
Proof. intros H. vm_compute in H. discriminate. Qed.

Lemma text_neq_A_C : py "A" <> py "C".
Proof. intros H. vm_compute in H. discriminate. Qed.

Lemma merge_end_to_end_witness :
  exists w1 w2,
    load (Some Sample.batch_ab) Sample.sink Sample.blank
    = (w1, Ok (Some Sample.batch_ab)) /\
    table w1 = [ {| transaction_id := py "A"; fields := Sample.fields_a |};
                 {| transaction_id := py "B"; fields := Sample.fields_b |} ] /\
    load (Some Sample.batch_bc) Sample.sink w1 = (w2, Ok (Some Sample.batch_bc)) /\
    table w2 = [ {| transaction_id := py "A"; fields := Sample.fields_a |};
                 {| transaction_id := py "B"; fields := Sample.fields_b |};
                 {| transaction_id := py "C"; fields := Sample.fields_c |} ].
Proof.
  apply (@merge_end_to_end _ _ (py "A") (py "B") (py "C")
           Sample.fields_a Sample.fields_b Sample.fields_b' Sample.fields_c
           Sample.fields_a Sample.fields_b Sample.fields_c
           Sample.sink Sample.blank);
    try reflexivity.
  - exact text_neq_A_B.
  - exact text_neq_B_C.
  - exact text_neq_A_C.
Defined.

Lemma load_twice_inserts_nothing_witness :
  let w1 := fst (load (Some Sample.batch_ab) Sample.sink Sample.blank) in
  let w2 := fst (load (Some Sample.batch_ab) Sample.sink w1) in
  table w2 = table w1 /\
  NoDup (keys (table w2)) /\
  count_occ (list_eq_dec N.eq_dec) (keys (table w2)) (py "A") = 1 /\
  count_occ (list_eq_dec N.eq_dec) (keys (table w2)) (py "B") = 1.
Proof.
  intros w1 w2.
  destruct (load_twice_inserts_nothing (Some Sample.batch_ab) Sample.sink
              Sample.blank (NoDup_nil _)) as (Hsame & Hnd & Honce).
  split; [exact Hsame|]. split; [exact Hnd|]. split.
  - apply (Honce Sample.batch_ab (Str (py "A") :: Sample.fields_a) (py "A")).
    + reflexivity.
    + vm_compute. reflexivity.
    + vm_compute. reflexivity.
    + simpl. left. reflexivity.
    + reflexivity.
  - apply (Honce Sample.batch_ab (Str (py "B") :: Sample.fields_b) (py "B")).
    + reflexivity.
    + vm_compute. reflexivity.
    + vm_compute. reflexivity.
    + simpl. right. left. reflexivity.
    + reflexivity.
Defined.

Lemma store_invariant_append_only_witness :
  NoDup (keys (table (run_all [Some Sample.monday; Some Sample.tuesday; None]
                              Sample.blank))) /\
  keys (table (run_all [Some Sample.monday; Some Sample.tuesday; None] Sample.blank))
  = [py "T1"; py "T3"; py "T4"; py "T5"].
Proof.
  split; [|vm_compute; reflexivity].
  refine (proj1 (store_invariant_append_only
                   [Some Sample.monday; Some Sample.tuesday; None] Sample.blank _)).
  simpl. constructor.
Defined.

Lemma load_returns_its_input_witness :
  exists d,
    Some Sample.transformed = Some d /\
    columns (reset_index Sample.transformed) = columns d /\
    map snd (rows (reset_index Sample.transformed)) = map snd (rows d) /\
    map fst (rows (reset_index Sample.transformed))
    = map Z.of_nat (seq 0 (length (rows d))).
Proof.
  apply (load_returns_its_input (Some Sample.transformed) Sample.sink Sample.blank
           (w' := fst (load (Some Sample.transformed) Sample.sink Sample.blank))).
  vm_compute. reflexivity.
Defined.

Lemma duplicate_ids_in_batch_witness :
  (exists b m a,
      map snd (rows (fresh 0 (table Sample.blank) (reset_index Sample.batch_aa)))
      = b ++ (Str (py "A") :: Sample.fields_a)
          :: m ++ (Str (py "A") :: Sample.fields_b) :: a) /\
  insert (table Sample.blank) (fresh 0 (table Sample.blank) (reset_index Sample.batch_aa))
  = Raise ConstraintException /\
  exists w' l,
    load (Some Sample.batch_aa) Sample.sink Sample.blank = (w', Ok None) /\
    table w' = table Sample.blank /\
    log w' = l ++ [ERROR (py "Load failed, something went wrong: ")
                         ConstraintException].
Proof.
  apply (@duplicate_ids_in_batch _ _ Sample.batch_aa Sample.sink Sample.blank
           (py "A") [] [] [] Sample.fields_a Sample.fields_b).
  - reflexivity.
  - reflexivity.
  - simpl. intros [].
  - intros cells [<-|[<-|[]]]; eexists; reflexivity.
  - reflexivity.
  - reflexivity.
Defined.

(** A first run on Monday's file, with its raw headers, one row without a
    price and one without a quantity: three records reach the table, and the
    exported file has the six normalized columns. *)
Example monday_run :
  let w := run_pipeline (Some Sample.monday) Sample.blank in
  keys (table w) = [py "T1"; py "T3"; py "T4"] /\
  option_map (fun f => match f with Table h _ => h | Unparseable => [] end)
             (lookup Sample.sink (files w)) = Some schema /\
  Forall (fun e => match e with INFO _ => True | ERROR _ _ => False end) (log w).
Proof.
  vm_compute. repeat split; repeat constructor.
Qed.

(* ================================================================== *)
(** ** Further properties: column names *)

Section NameFacts.
Variable unicode_lower : pystr -> pystr.

Lemma lstrip_space_app ws s :
  Forall (fun c => isspace c = true) ws -> lstrip (ws ++ s) = lstrip s.
Proof.
  induction 1 as [|c ws Hc _ IH]; simpl; [reflexivity|]. now rewrite Hc.
Qed.

Lemma lstrip_all_space ws :
  Forall (fun c => isspace c = true) ws -> lstrip ws = [].
Proof.
  intros H. rewrite <- (app_nil_r ws). now rewrite lstrip_space_app.
Qed.

Lemma lstrip_app_space s ws :
  Forall (fun c => isspace c = true) ws ->
  lstrip (s ++ ws) = match lstrip s with [] => [] | y => y ++ ws end.
Proof.
  intros H. induction s as [|c s IH]; simpl.
  - now apply lstrip_all_space.
  - destruct (isspace c); [exact IH | reflexivity].
Qed.

Lemma strip_outer_space ws s ws' :
  Forall (fun c => isspace c = true) ws ->
  Forall (fun c => isspace c = true) ws' ->
  strip (ws ++ s ++ ws') = strip s.
Proof.
  intros H H'. unfold strip. rewrite (lstrip_space_app _ H), (lstrip_app_space _ H').
  destruct (lstrip s) as [|c y]; [reflexivity|].
  rewrite rev_app_distr. rewrite lstrip_space_app; [reflexivity|].
  now apply Forall_rev.
Qed.

Lemma lstrip_incl s c : In c (lstrip s) -> In c s.
Proof.
  induction s as [|x s IH]; simpl; [auto|].
  destruct (isspace x); [intros H; right; auto | auto].
Qed.

Lemma strip_incl s c : In c (strip s) -> In c s.
Proof.
  unfold strip. intros H. apply in_rev in H. apply lstrip_incl in H.
  apply in_rev in H. now apply lstrip_incl.
Qed.

Lemma isspace_ascii_lower c : isspace (ascii_lower c) = isspace c.
Proof.
  unfold ascii_lower. destruct (is_upper c) eqn:Hu; [|reflexivity].
  assert (H1 : isspace c = false) by chars.
  assert (H2 : isspace (c + 32) = false) by chars.
  now rewrite H1, H2.
Qed.

Lemma lstrip_map_lower s : lstrip (map ascii_lower s) = map ascii_lower (lstrip s).
Proof.
  induction s as [|c s IH]; simpl; [reflexivity|].
  rewrite isspace_ascii_lower. now destruct (isspace c).
Qed.

Lemma strip_map_lower s : strip (map ascii_lower s) = map ascii_lower (strip s).
Proof.
  unfold strip.
  now rewrite lstrip_map_lower, <- map_rev, lstrip_map_lower, map_rev.
Qed.

Lemma ascii_lower_ascii c : is_ascii c = true -> is_ascii (ascii_lower c) = true.
Proof.
  intros H. unfold ascii_lower. destruct (is_upper c) eqn:Hu; [chars | exact H].
Qed.

Lemma lower_ascii s :
  forallb is_ascii s = true -> lower unicode_lower s = map ascii_lower s.
Proof. intros H. unfold lower. now rewrite H. Qed.

Lemma strip_ascii s : forallb is_ascii s = true -> forallb is_ascii (strip s) = true.
Proof.
  rewrite !forallb_forall. intros H c Hc. apply H. now apply strip_incl.
Qed.

Lemma map_lower_ascii s :
  forallb is_ascii s = true -> forallb is_ascii (map ascii_lower s) = true.
Proof.
  rewrite !forallb_forall. intros H c Hc.
  apply in_map_iff in Hc as [d [<- Hd]]. apply ascii_lower_ascii. now apply H.
Qed.

(** On an ASCII name, cleaning is cleaning its lowercased form. *)
Lemma clean_column_lowered s :
  forallb is_ascii s = true ->
  clean_column unicode_lower s
  = collapse_spaces (remove_special (map ascii_lower (strip s))).
Proof.
  intros H. unfold clean_column. now rewrite (lower_ascii _ (strip_ascii _ H)).
Qed.

(** X1. Whitespace around a column name does not count: a name with any
    whitespace put before and after it is cleaned to the same name. *)
Theorem clean_column_ignores_outer_space (ws s ws' : pystr) :
  Forall (fun c => isspace c = true) ws ->
  Forall (fun c => isspace c = true) ws' ->
  clean_column unicode_lower (ws ++ s ++ ws') = clean_column unicode_lower s.
Proof.
  intros H H'. unfold clean_column. now rewrite strip_outer_space.
Qed.

(** X2. The case of ASCII letters does not count: two ASCII names that differ
    only in case are cleaned to the same name. *)
Theorem clean_column_ignores_case (s t : pystr) :
  forallb is_ascii s = true ->
  forallb is_ascii t = true ->
  map ascii_lower s = map ascii_lower t ->
  clean_column unicode_lower s = clean_column unicode_lower t.
Proof.
  intros Hs Ht Heq.
  rewrite (clean_column_lowered _ Hs), (clean_column_lowered _ Ht).
  now rewrite <- !strip_map_lower, Heq.
Qed.

(** X3. A cleaned name is made of digits, small ASCII letters and underscores
    only (so it holds no whitespace and no capital), whatever the raw name,
    provided lowercasing of non-ASCII text leaves no ASCII capital. *)
Theorem clean_column_alphabet (c : pystr) :
  (forall s x, In x (unicode_lower s) -> is_upper x = false) ->
  Forall (fun x => (is_digit x = true \/ is_lower x = true \/ x = underscore) /\
                   isspace x = false /\ is_upper x = false)
         (clean_column unicode_lower c).
Proof.
  intros Hlow.
  pose proof (clean_column_all_plain unicode_lower Hlow c) as H.
  unfold all_plain in H. eapply Forall_impl; [|exact H].
  intros x Hx. cbv beta in Hx. split; [|split].
  - unfold plain in Hx. apply Bool.orb_true_iff in Hx as [Hx|Hx].
    + apply Bool.orb_true_iff in Hx as [Hx|Hx]; auto.
    + right. right. now apply N.eqb_eq.
  - now apply plain_not_space.
  - now apply plain_not_upper.
Qed.

End NameFacts.

Lemma clean_column_ignores_outer_space_witness :
  clean_column sample_lower (py "  " ++ py "Total Revenue" ++ py " ")
  = clean_column sample_lower (py "Total Revenue").
Proof.
  apply (@clean_column_ignores_outer_space sample_lower (py "  ")
           (py "Total Revenue") (py " ")); repeat constructor.
Defined.

Lemma clean_column_ignores_case_witness :
  clean_column sample_lower (py "Price") = clean_column sample_lower (py "PRICE").
Proof.
  apply (@clean_column_ignores_case sample_lower (py "Price") (py "PRICE"));
    reflexivity.
Defined.

Lemma clean_column_alphabet_witness :
  Forall (fun x => (is_digit x = true \/ is_lower x = true \/ x = underscore) /\
                   isspace x = false /\ is_upper x = false)
         (clean_column sample_lower (py " Harga (Rp) ")).
Proof.
  apply (@clean_column_alphabet sample_lower (py " Harga (Rp) ")
           sample_lower_no_capital).
Defined.

(* ================================================================== *)
(** ** Further properties: transform *)

Section MoreTransformFacts.
Context {R : Runtime} {E : Engine}.

Lemma positions_from_nil l cols i :
  positions_from i l cols = [] <-> ~ In l cols.
Proof.
  split.
  - intros H Hin. apply In_nth_error in Hin as [k Hk].
    assert (Hp : In (i + k) (positions_from i l cols)).
    { apply positions_from_In. now exists k. }
    now rewrite H in Hp.
  - intros H. destruct (positions_from i l cols) as [|p ps] eqn:Hp; [reflexivity|].
    exfalso. apply H.
    assert (Hin : In p (positions_from i l cols)) by (rewrite Hp; now left).
    apply positions_from_In in Hin as [k [_ Hk]]. eapply nth_error_In, Hk.
Qed.

Lemma surviving_filter pp df :
  filter (fun r => negb (isnull (cell_at pp r)) && true) (rows df) = surviving pp df.
Proof. apply filter_ext. intros r. apply Bool.andb_true_r. Qed.

(** What transform computes when the two columns are there once each, the
    products are defined and the assignment goes through. *)
Lemma transform_computes df w pq pp tr out :
  positions (py "price") df = [pp] ->
  positions (py "quantity") df = [pq] ->
  cells_mul (map (cell_at pq) (surviving pp df))
            (map (cell_at pp) (surviving pp df)) = Ok tr ->
  setitem {| columns := columns df; rows := surviving pp df |}
          (py "total_revenue") tr = Ok out ->
  transform (Some df) w
  = (logged w [INFO (py "Transform started"); INFO (py "Transform succesfully")],
     Ok (Some out)).
Proof.
  intros Hp Hq Hm Hs.
  unfold transform. rewrite try_except_None. unfold transform_try. cbn.
  unfold dropna, getitem. rewrite Hp. cbn.
  unfold positions in Hp, Hq. cbn. rewrite Hq, Hp. cbn.
  rewrite surviving_filter, Hm. cbn. unfold lift. rewrite Hs. cbn.
  unfold logged, with_log. cbn. now rewrite <- app_assoc.
Qed.

(** X4. The table transform returns has the columns of its input, in their
    order, followed by a new last column [total_revenue] when the input had
    none; an input column of that name is overwritten in its place and no
    column is added. Every row of the result has one cell per column. *)
Theorem transform_adds_one_column df w w' out :
  rectangular df ->
  transform (Some df) w = (w', Ok (Some out)) ->
  rectangular out /\
  (~ In (py "total_revenue") (columns df) ->
   columns out = columns df ++ [py "total_revenue"]) /\
  (In (py "total_revenue") (columns df) -> columns out = columns df).
Proof.
  intros Hrect H.
  apply transform_Some in H as (df' & pq & pp & tr & Hdf & Hp & Hq & Hm & Hs).
  injection Hdf as <-.
  set (d := {| columns := columns df; rows := surviving pp df |}) in *.
  pose proof (@setitem_columns _ d (py "total_revenue") tr out Hs) as Hc.
  unfold positions in Hc. cbn [columns d] in Hc.
  split; [|split].
  - apply (@setitem_rectangular _ d (py "total_revenue") tr out);
      [exact (surviving_rectangular pp Hrect) | exact Hs].
  - intros Hn. rewrite Hc.
    apply (positions_from_nil _ _ 0) in Hn. now rewrite Hn.
  - intros Hin. rewrite Hc.
    destruct (positions_from 0 (py "total_revenue") (columns df)) eqn:Hpos;
      [|reflexivity].
    now apply positions_from_nil in Hpos.
Qed.

(** X5. Without a [price] column transform logs the KeyError for [price] and
    returns [None]; with [price] but without [quantity] it logs the KeyError
    for [quantity] and returns [None]. Nothing but the log changes. *)
Theorem transform_missing_column df w :
  ~ In (py "price") (columns df) \/ ~ In (py "quantity") (columns df) ->
  exists l,
    (l = py "price" \/ (l = py "quantity" /\ In (py "price") (columns df))) /\
    ~ In l (columns df) /\
    transform (Some df) w
    = (logged w [INFO (py "Transform started");
                 ERROR (py "Transform failed, something went wrong: ") (KeyError l)],
       Ok None).
Proof.
  intros H.
  assert (Hlog : forall a b : entry,
             logged (with_log w (log w ++ [a])) [b] = logged w [a; b]).
  { intros a b. unfold logged, with_log. cbn. now rewrite <- app_assoc. }
  destruct (positions_from 0 (py "price") (columns df)) as [|pp ps] eqn:Hp.
  - exists (py "price"). split; [now left|]. split; [now apply positions_from_nil in Hp|].
    unfold transform. rewrite try_except_None. unfold transform_try. cbn.
    unfold dropna, positions. rewrite Hp. cbn. apply f_equal2; [apply Hlog | reflexivity].
  - assert (Hin : In (py "price") (columns df)).
    { destruct (in_dec (list_eq_dec N.eq_dec) (py "price") (columns df)) as [Hi|Hn];
        [exact Hi|]. apply (positions_from_nil _ _ 0) in Hn. congruence. }
    destruct H as [H|H]; [contradiction|].
    exists (py "quantity"). split; [right; now split|]. split; [exact H|].
    apply (positions_from_nil _ _ 0) in H.
    unfold transform. rewrite try_except_None. unfold transform_try. cbn.
    unfold dropna, getitem, positions. rewrite Hp. cbn. rewrite H. cbn.
    apply f_equal2; [apply Hlog | reflexivity].
Qed.

Lemma filter_all {A} (f : A -> bool) (l : list A) :
  Forall (fun a => f a = true) l -> filter f l = l.
Proof.
  induction 1 as [|a l Ha _ IH]; cbn; [reflexivity|]. now rewrite Ha, IH.
Qed.

Lemma cells_mul_total {A} (f g : A -> cell) (l : list A) :
  Forall (fun r => exists v, cell_mul (f r) (g r) = Ok v) l ->
  exists vs, cells_mul (map f l) (map g l) = Ok vs.
Proof.
  induction 1 as [|r l [v Hv] _ [vs IH]]; cbn.
  - now exists [].
  - rewrite Hv, IH. now eexists.
Qed.

(** X6. Transform applied to a table it returned returns that table again:
    no row is dropped, and the column [total_revenue] is overwritten with the
    values it holds, not added a second time. *)
Theorem transform_twice df w w' out :
  rectangular df ->
  transform (Some df) w = (w', Ok (Some out)) ->
  transform (Some out) w'
  = (logged w' [INFO (py "Transform started"); INFO (py "Transform succesfully")],
     Ok (Some out)).
Proof.
  intros Hrect H.
  destruct (transform_rows w Hrect H)
    as (pq & pp & tr & Hp & Hq & Hp' & Hq' & Hm & Hs & Hrows).
  assert (Hlp : nth_error (columns df) pp = Some (py "price")).
  { apply positions_label. rewrite Hp. now left. }
  assert (Hlq : nth_error (columns df) pq = Some (py "quantity")).
  { apply positions_label. rewrite Hq. now left. }
  (* the rows of [out] have the prices and quantities of the surviving rows *)
  assert (Hpp : map (cell_at pp) (rows out) = map (cell_at pp) (surviving pp df)).
  { clear - Hrows Hlp. induction Hrows as [|ro ri lo li (_ & Hsame) _ IH];
      cbn; [reflexivity|].
    now rewrite IH, (Hsame pp _ Hlp price_not_revenue). }
  assert (Hqq : map (cell_at pq) (rows out) = map (cell_at pq) (surviving pp df)).
  { clear - Hrows Hlq. induction Hrows as [|ro ri lo li (_ & Hsame) _ IH];
      cbn; [reflexivity|].
    now rewrite IH, (Hsame pq _ Hlq quantity_not_revenue). }
  assert (Hsurv : surviving pp out = rows out).
  { unfold surviving. apply filter_all.
    assert (Hs0 : Forall (fun r => isnull (cell_at pp r) = false) (surviving pp df)).
    { apply Forall_forall. intros r Hr'. apply filter_In in Hr' as [_ Hr'].
      now apply Bool.negb_true_iff. }
    clear - Hrows Hs0 Hlp. induction Hrows as [|ro ri lo li (_ & Hsame) _ IH];
      [constructor|].
    inversion Hs0; subst. constructor; [|now apply IH].
    rewrite (Hsame pp _ Hlp price_not_revenue). cbv beta.
    apply Bool.negb_true_iff. assumption. }
  apply (@transform_computes out w' pq pp tr out Hp' Hq').
  - now rewrite Hsurv, Hpp, Hqq.
  - rewrite Hsurv.
    replace {| columns := columns out; rows := rows out |} with out
      by now destruct out.
    apply (@setitem_again _ {| columns := columns df; rows := surviving pp df |}
             (py "total_revenue") tr out);
      [exact (surviving_rectangular pp Hrect) | exact Hs].
Qed.

End MoreTransformFacts.

Lemma transform_adds_one_column_witness :
  rectangular Sample.transformed /\
  (~ In (py "total_revenue") (columns Sample.sales) ->
   columns Sample.transformed = columns Sample.sales ++ [py "total_revenue"]) /\
  (In (py "total_revenue") (columns Sample.sales) ->
   columns Sample.transformed = columns Sample.sales).
Proof.
  eapply (transform_adds_one_column (df := Sample.sales) Sample.blank).
  - repeat constructor.
  - vm_compute. reflexivity.
Defined.

Lemma transform_missing_column_witness :
  exists l,
    (l = py "price" \/
     (l = py "quantity" /\
      In (py "price")
         (columns {| columns := [py "transaction_id"; py "price"]; rows := [] |}))) /\
    ~ In l (columns {| columns := [py "transaction_id"; py "price"]; rows := [] |}) /\
    transform (Some {| columns := [py "transaction_id"; py "price"]; rows := [] |})
              Sample.blank
    = (logged Sample.blank
         [INFO (py "Transform started");
          ERROR (py "Transform failed, something went wrong: ") (KeyError l)],
       Ok None).
Proof.
  apply (transform_missing_column
           {| columns := [py "transaction_id"; py "price"]; rows := [] |}
           Sample.blank).
  right. simpl. intros [H|[H|[]]]; vm_compute in H; discriminate.
Defined.

Lemma transform_twice_witness :
  transform (Some Sample.transformed)
            (logged Sample.blank
               [INFO (py "Transform started"); INFO (py "Transform succesfully")])
  = (logged (logged Sample.blank
               [INFO (py "Transform started"); INFO (py "Transform succesfully")])
       [INFO (py "Transform started"); INFO (py "Transform succesfully")],
     Ok (Some Sample.transformed)).
Proof.
  apply (transform_twice (df := Sample.sales) Sample.blank).
  - repeat constructor.
  - vm_compute. reflexivity.
Defined.

(* ================================================================== *)
(** ** Further properties: load *)

Section MoreLoadFacts.
Context {R : Runtime} {E : Engine}.

(** X7. When the sink cannot be written, load stops at the export: it logs
    the OSError and returns [None]; the database is not opened, the table is
    neither created nor changed, and no file is touched. *)
Theorem load_unwritable_sink d path w :
  writable w path = false ->
  load (Some d) path w
  = (logged w [INFO (py "Load started"); INFO (py "Export to csv started");
               ERROR (py "Load failed, something went wrong: ") (OSError path)],
     Ok None).
Proof.
  intros Hw. unfold load. rewrite try_except_None. unfold load_try.
  unfold bind, to_csv, method_of, ret, logging_info. cbn. rewrite Hw. cbn.
  unfold logged, with_log. cbn. now rewrite <- !app_assoc.
Qed.

Lemma lookup_first path f fs : lookup path ((path, f) :: fs) = Some f.
Proof. cbn. now rewrite pystr_eqb_refl. Qed.

(** The files after a load whose sink is writable, whatever happens next. *)
Lemma load_files d path w :
  writable w path = true ->
  files (fst (load (Some d) path w))
  = (path, written (columns d) (map snd (rows d))) :: files w.
Proof.
  intros Hw. unfold load. rewrite try_except_None. unfold load_try.
  unfold bind, to_csv, connect, create_table_if_not_exists,
    select_transaction_id, new_rows, insert_into_daily_sales, getcwd, close,
    ret, lift, raise, logging_info, method_of. cbn.
  rewrite Hw. cbn. rewrite number_rows_snd.
  destruct (db_opens w); cbn; [|reflexivity].
  destruct (getitem (reset_index d) (py "transaction_id")) as [[ids|]|e];
    destruct (db w) as [s|] eqn:Hd; cbn; rewrite ?Hd; cbn; try reflexivity.
  - destruct (negb (empty _)); cbn; rewrite ?Hd; cbn; [|reflexivity].
    destruct (insert s _); reflexivity.
  - destruct (negb (empty _)); cbn; [|reflexivity].
    destruct (insert [] _); reflexivity.
Qed.

(** X8. The export comes first and is not undone: when the sink is writable,
    after load (also one that fails on the database or on the insert and
    returns [None]) the file at the sink path is the one [to_csv] writes for
    the columns and the rows of the table load was given, without the index,
    replacing what was there; every other file is as it was. *)
Theorem load_exports_before_store d path w :
  writable w path = true ->
  let w' := fst (load (Some d) path w) in
  lookup path (files w') = Some (written (columns d) (map snd (rows d))) /\
  forall p, p <> path -> lookup p (files w') = lookup p (files w).
Proof.
  intros Hw w'. unfold w'. rewrite (@load_files d path w Hw). split.
  - apply lookup_first.
  - intros p Hp. cbn. rewrite pystr_eqb_neq by congruence. reflexivity.
Qed.


(** X10. A successful load appends one record per row whose id is no key yet,
    in the order of the rows, each under the key its first column converts to
    and with the fields the engine converts the other columns to; it appends
    nothing else. *)
Theorem load_appends_fresh_rows_in_order d path w w' r p :
  load (Some d) path w = (w', Ok (Some r)) ->
  positions (py "transaction_id") d = [p] ->
  exists added,
    table w' = table w ++ added /\
    convert_all (map snd (rows (fresh p (table w) (reset_index d))))
    = Ok (map (fun rec => (Some (transaction_id rec), fields rec)) added).
Proof.
  intros H Hpos. destruct (load_outcome (Some d) path w) as (w0 & Hl & Ht & _).
  rewrite Hl in H. injection H as -> H. rewrite Ht.
  destruct (writable w path && db_opens w); [|discriminate].
  destruct (merge (table w) (reset_index d)) as [s'|e] eqn:Hm; [|discriminate].
  rewrite merge_unfold in Hm.
  change (positions (py "transaction_id") (reset_index d))
    with (positions (py "transaction_id") d) in Hm.
  rewrite Hpos in Hm.
  destruct (negb (empty (fresh p (table w) (reset_index d)))) eqn:He.
  - unfold insert in Hm. destruct (Nat.eqb _ 6); [|discriminate].
    destruct (convert_all _) as [cs|e] eqn:Hcs; [|discriminate].
    apply append_Ok in Hm as (added & -> & -> & _). now exists added.
  - injection Hm as <-. exists []. rewrite app_nil_r. split; [reflexivity|].
    apply Bool.negb_false_iff in He. unfold empty in He.
    destruct (rows (fresh p (table w) (reset_index d))) as [|x xs]; [reflexivity|].
    cbn [columns fresh reset_index] in He.
    pose proof (positions_nonempty_columns _ _ Hpos). now destruct (columns d).
Qed.

(** A merge that raises: load returns [None], leaves the table and logs the
    exception. *)
Lemma load_merge_raises d path w e :
  writable w path = true -> db_opens w = true ->
  merge (table w) (reset_index d) = Raise e ->
  exists w' l,
    load (Some d) path w = (w', Ok None) /\
    table w' = table w /\
    log w' = l ++ [ERROR (py "Load failed, something went wrong: ") e].
Proof.
  intros Hw Ho Hm.
  destruct (load_outcome (Some d) path w) as (w' & Hl & Ht & _).
  rewrite Hw, Ho, Hm in Hl, Ht. cbn in Hl, Ht.
  destruct (@load_merge_error _ _ d path w e Hw Ho Hm) as [l Hlog].
  rewrite Hl in Hlog. now exists w', l.
Qed.

Lemma empty_false_rows (df : DataFrame) :
  columns df = schema -> rows df <> [] -> empty df = false.
Proof.
  intros Hc Hr. unfold empty. rewrite Hc. now destruct (rows df).
Qed.

(** X11. Ids that are numbers in the table are stored as text, and a number
    is never found among the text keys read back: a second load of a batch
    with numeric ids takes every row for new, its insert is refused by the
    primary key, and it returns [None] although the first load succeeded. The
    table is left as the first load made it. *)
Theorem numeric_ids_second_load_fails d path w w1 r :
  columns d = schema ->
  rows d <> [] ->
  Forall (fun cells => exists x, nth 0 cells Null = Num x) (map snd (rows d)) ->
  load (Some d) path w = (w1, Ok (Some r)) ->
  exists w2 l,
    load (Some d) path w1 = (w2, Ok None) /\
    table w2 = table w1 /\
    log w2 = l ++ [ERROR (py "Load failed, something went wrong: ")
                         ConstraintException].
Proof.
  intros Hcols Hrows Hnum H1.
  destruct (load_outcome (Some d) path w) as (w0 & Hl & Ht & _ & Hw1 & Ho1).
  rewrite Hl in H1. injection H1 as -> H1.
  destruct (writable w path && db_opens w) eqn:Hwo; [|discriminate].
  apply Bool.andb_true_iff in Hwo as [Hw Ho].
  destruct (merge (table w) (reset_index d)) as [s1|e] eqn:Hm; [|discriminate].
  clear H1.
  (* every row is taken for new, against any table *)
  assert (Hfresh : forall s, map snd (rows (fresh 0 s (reset_index d)))
                             = map snd (rows d)).
  { intros s. rewrite fresh_cells. apply filter_all.
    eapply Forall_impl; [|exact Hnum]. intros cells [x Hx]. cbv beta.
    now rewrite Hx. }
  assert (Hne : forall s, empty (fresh 0 s (reset_index d)) = false).
  { intros s. apply empty_false_rows; [exact Hcols|].
    intros Hr. specialize (Hfresh s). rewrite Hr in Hfresh. cbn in Hfresh.
    destruct (rows d); [now apply Hrows | discriminate]. }
  rewrite merge_unfold, (schema_transaction_id _ Hcols), Hne in Hm. cbn in Hm.
  unfold insert in Hm. change (columns (fresh 0 (table w) (reset_index d)))
    with (columns d) in Hm. rewrite Hcols in Hm.
  change (Nat.eqb (length schema) 6) with true in Hm. cbv iota in Hm.
  rewrite Hfresh in Hm.
  destruct (convert_all (map snd (rows d))) as [cs|e] eqn:Hcs; [|discriminate].
  apply append_Ok in Hm as (added & Hs1 & -> & _).
  assert (Hm2 : merge (table w1) (reset_index d) = Raise ConstraintException).
  { rewrite merge_unfold, (schema_transaction_id _ Hcols), Hne. cbn.
    unfold insert. change (columns (fresh 0 (table w1) (reset_index d)))
      with (columns d). rewrite Hcols.
    change (Nat.eqb (length schema) 6) with true. cbv iota.
    rewrite Hfresh, Hcs, Ht, Hs1.
    destruct added as [|a added].
    - exfalso. destruct (rows d) as [|x xs]; [now apply Hrows|].
      cbn in Hcs. destruct (convert (snd x)); [|discriminate].
      destruct (convert_all (map snd xs)); discriminate.
    - cbn [map append].
      assert (Hmem : mem (transaction_id a) (keys (table w ++ a :: added)) = true).
      { apply mem_In. rewrite keys_app. apply in_or_app. right. now left. }
      now rewrite Hmem. }
  apply load_merge_raises; [now rewrite Hw1 | now rewrite Ho1 | exact Hm2].
Qed.

(** X12. A batch in which some row has no id is refused as a whole: the
    missing id is a NULL key, the insert violates the primary key, load
    returns [None] and none of the batch's rows is stored. *)
Theorem null_id_rejects_batch d path w cells :
  columns d = schema ->
  In cells (map snd (rows d)) ->
  nth 0 cells Null = Null ->
  (forall c, In c (map snd (rows d)) -> exists v, convert c = Ok v) ->
  writable w path = true ->
  db_opens w = true ->
  exists w' l,
    load (Some d) path w = (w', Ok None) /\
    table w' = table w /\
    log w' = l ++ [ERROR (py "Load failed, something went wrong: ")
                         ConstraintException].
Proof.
  intros Hcols Hin Hnull Hconv Hw Ho.
  apply load_merge_raises; [exact Hw | exact Ho |].
  set (nd := fresh 0 (table w) (reset_index d)).
  assert (Hnew : In cells (map snd (rows nd))).
  { unfold nd. rewrite fresh_cells. apply filter_In. split; [exact Hin|].
    now rewrite Hnull. }
  assert (Hne : empty nd = false).
  { apply empty_false_rows; [exact Hcols|]. intros Hr. now rewrite Hr in Hnew. }
  rewrite merge_unfold, (schema_transaction_id _ Hcols). fold nd. rewrite Hne. cbn.
  unfold insert. change (columns nd) with (columns d). rewrite Hcols.
  change (Nat.eqb (length schema) 6) with true. cbv iota.
  destruct (convert_all_total (map snd (rows nd))) as [cs Hcs].
  { intros c Hc. apply Hconv. unfold nd in Hc. rewrite fresh_cells in Hc.
    now apply filter_In in Hc as [Hc _]. }
  rewrite Hcs.
  destruct (append (table w) cs) as [s'|e] eqn:Ha;
    [|now rewrite (append_Raise _ _ Ha)].
  exfalso. apply append_Ok in Ha as (added & _ & -> & _).
  destruct (convert_all_In _ cells Hcs Hnew) as [c [Hc Hcin]].
  apply in_map_iff in Hcin as [rec [<- _]].
  destruct cells as [|k rest]; cbn in Hc; [discriminate|].
  cbn in Hnull. subst k. destruct (cast_fields rest); discriminate.
Qed.

End MoreLoadFacts.

Lemma load_unwritable_sink_witness :
  load (Some Sample.batch_ab) Sample.sink Sample.readonly
  = (logged Sample.readonly
       [INFO (py "Load started"); INFO (py "Export to csv started");
        ERROR (py "Load failed, something went wrong: ") (OSError Sample.sink)],
     Ok None).
Proof.
  apply (@load_unwritable_sink _ _ Sample.batch_ab Sample.sink Sample.readonly).
  reflexivity.
Defined.

Lemma load_exports_before_store_witness :
  let w' := fst (load (Some Sample.batch_aa) Sample.sink Sample.blank) in
  lookup Sample.sink (files w')
  = Some (written (columns Sample.batch_aa) (map snd (rows Sample.batch_aa))) /\
  forall p, p <> Sample.sink -> lookup p (files w') = lookup p (files Sample.blank).
Proof.
  apply (@load_exports_before_store _ _ Sample.batch_aa Sample.sink Sample.blank).
  reflexivity.
Defined.


Lemma load_appends_fresh_rows_in_order_witness :
  exists added,
    table (fst (load (Some Sample.batch_ab) Sample.sink Sample.blank))
    = table Sample.blank ++ added /\
    convert_all (map snd (rows (fresh 0 (table Sample.blank)
                                      (reset_index Sample.batch_ab))))
    = Ok (map (fun rec => (Some (transaction_id rec), fields rec)) added).
Proof.
  apply (@load_appends_fresh_rows_in_order _ _ Sample.batch_ab Sample.sink
           Sample.blank _ Sample.batch_ab 0).
  - vm_compute. reflexivity.
  - vm_compute. reflexivity.
Defined.

Lemma numeric_ids_second_load_fails_witness :
  exists w2 l,
    load (Some Sample.batch_numeric) Sample.sink
         (fst (load (Some Sample.batch_numeric) Sample.sink Sample.blank))
    = (w2, Ok None) /\
    table w2 = table (fst (load (Some Sample.batch_numeric) Sample.sink Sample.blank)) /\
    log w2 = l ++ [ERROR (py "Load failed, something went wrong: ")
                         ConstraintException].
Proof.
  apply (@numeric_ids_second_load_fails _ _ Sample.batch_numeric Sample.sink
           Sample.blank _ Sample.batch_numeric).
  - reflexivity.
  - discriminate.
  - repeat constructor; eexists; reflexivity.
  - vm_compute. reflexivity.
Defined.

Lemma null_id_rejects_batch_witness :
  exists w' l,
    load (Some Sample.batch_null) Sample.sink Sample.blank = (w', Ok None) /\
    table w' = table Sample.blank /\
    log w' = l ++ [ERROR (py "Load failed, something went wrong: ")
                         ConstraintException].
Proof.
  apply (@null_id_rejects_batch _ _ Sample.batch_null Sample.sink Sample.blank
           (Null :: Sample.fields_b)).
  - reflexivity.
  - simpl. right. left. reflexivity.
  - reflexivity.
  - intros c [<-|[<-|[]]]; eexists; reflexivity.
  - reflexivity.
  - reflexivity.
Defined.

(* ================================================================== *)
(** ** Further properties: the entry point *)

Section MainFacts.
Context {R : Runtime} {E : Engine}.

Lemma extract_only_logs path w :
  exists l r, extract path w = (logged w l, Ok r).
Proof.
  unfold extract. rewrite try_except_None.
  unfold extract_try, bind, read_csv, logging_info, ret. cbn.
  destruct (lookup path (files w)) as [[h rs|]|]; cbn;
    eexists _, _; unfold logged, with_log; cbn;
    rewrite <- ?app_assoc; cbn; reflexivity.
Qed.

Lemma transform_only_logs o w :
  exists l r, transform o w = (logged w l, Ok r).
Proof.
  unfold transform. rewrite try_except_None.
  unfold transform_try, bind, method_of, lift, logging_info, ret, raise. cbn.
  destruct o as [d|]; cbn;
    [destruct (dropna d (py "price")) as [d1|e]; cbn;
     [destruct (getitem d1 (py "quantity")) as [q|e]; cbn;
      [destruct (getitem d1 (py "price")) as [p|e]; cbn;
       [destruct (mul q p) as [t|e]; cbn;
        [destruct (setitem d1 (py "total_revenue") t) as [d2|e]; cbn|]|]|]|]|];
    eexists _, _; unfold logged, with_log; cbn;
    rewrite <- ?app_assoc; cbn; reflexivity.
Qed.

(** X13. When transform returns [None] (also because extract did), the run
    ends with [None] and has changed nothing but the log: no file is written
    and the table is neither created nor changed. The last log entry is the
    AttributeError of load, called on [None]. *)
Theorem main_without_table_only_logs w w1 r1 w2 :
  extract (input_path w) w = (w1, Ok r1) ->
  transform r1 w1 = (w2, Ok None) ->
  exists l,
    main w
    = (logged w (l ++ [INFO (py "Load started");
                       ERROR (py "Load failed, something went wrong: ")
                             AttributeError]),
       Ok None).
Proof.
  intros H1 H2. rewrite (main_chain _ H1 H2), load_None.
  destruct (extract_only_logs (input_path w) w) as (l1 & r1' & H1').
  rewrite H1 in H1'. injection H1' as -> _.
  destruct (transform_only_logs r1 (logged w l1)) as (l2 & r2' & H2').
  rewrite H2 in H2'. injection H2' as -> _.
  exists (l1 ++ l2). now rewrite !logged_logged, app_assoc.
Qed.

Lemma extract_computes path w h rs :
  lookup path (files w) = Some (Table h rs) ->
  extract path w
  = (logged w [INFO (py "Extract started"); INFO (py "Extract succesfully")],
     Ok (Some {| columns := map (clean_column unicode_lower) h;
                 rows := number_rows rs |})).
Proof.
  intros H. unfold extract. rewrite try_except_None.
  unfold extract_try, bind, read_csv, logging_info, ret. cbn. rewrite H. cbn.
  unfold logged, with_log. cbn. now rewrite <- app_assoc.
Qed.

Lemma surviving_number_rows cols rs :
  map snd (surviving 3 {| columns := cols; rows := number_rows rs |}) = priced rs.
Proof.
  unfold surviving, priced, number_rows. cbn [rows].
  apply (filter_snd_combine (fun cells => negb (isnull (nth 3 cells Null)))).
  now rewrite length_map, length_seq.
Qed.

Lemma setitem_new_column (d : DataFrame) l vs :
  positions l d = [] ->
  exists out,
    setitem d l vs = Ok out /\
    columns out = columns d ++ [l] /\
    map snd (rows out)
    = map (fun cv => fst cv ++ [snd cv]) (combine (map snd (rows d)) vs).
Proof.
  intros H. unfold setitem. rewrite H. eexists. split; [reflexivity|].
  cbn [columns rows]. split; [reflexivity|].
  rewrite map_map. cbn [snd]. generalize vs. clear.
  induction (rows d) as [|r rs IH]; intros [|v vs]; cbn; try reflexivity.
  now rewrite IH.
Qed.

Lemma filter_map_comm {A B} (f : B -> bool) (g : A -> B) (l : list A) :
  filter f (map g l) = map g (filter (fun a => f (g a)) l).
Proof.
  induction l as [|a l IH]; cbn; [reflexivity|].
  destruct (f (g a)); cbn; now rewrite IH.
Qed.

Lemma combine_fst {A B} (l : list A) (l' : list B) :
  length l = length l' -> map fst (combine l l') = l.
Proof.
  revert l'. induction l as [|a l IH]; intros [|b l'] H; cbn in *;
    try reflexivity; try discriminate.
  now rewrite IH by lia.
Qed.

(** Appending goes through when the keys are present, pairwise distinct and
    not in the table. *)
Lemma append_succeeds cs : forall s ks,
  map fst cs = map Some ks ->
  NoDup ks ->
  (forall k, In k ks -> ~ In k (keys s)) ->
  exists s', append s cs = Ok s' /\ keys s' = keys s ++ ks.
Proof.
  induction cs as [|[ko f] cs IH]; intros s ks Hk Hnd Hfresh.
  - destruct ks; [|discriminate]. exists s. now rewrite app_nil_r.
  - destruct ks as [|k ks]; [discriminate|]. cbn in Hk.
    injection Hk as -> Hk. inversion Hnd as [|? ? Hnk Hnd']; subst.
    cbn [append].
    assert (Hm : mem k (keys s) = false) by (apply mem_false, Hfresh; now left).
    rewrite Hm.
    destruct (IH (s ++ [{| transaction_id := k; fields := f |}]) ks Hk Hnd')
      as (s' & Ha & Hkeys).
    { intros k' Hk' Hin. rewrite keys_app in Hin.
      apply in_app_or in Hin as [Hin|[<-|[]]].
      - apply (Hfresh k'); [now right | exact Hin].
      - contradiction. }
    exists s'. split; [exact Ha|].
    rewrite Hkeys, keys_app. cbn. now rewrite <- app_assoc.
Qed.

Lemma convert_new_rows (newv : list (list cell * cell)) : forall ks,
  Forall (fun cv => fst cv <> [] /\
                    exists g, cast_fields (tl (fst cv) ++ [snd cv]) = Some g) newv ->
  map (fun cv => nth 0 (fst cv) Null) newv = map Str ks ->
  exists cs,
    convert_all (map (fun cv => fst cv ++ [snd cv]) newv) = Ok cs /\
    map fst cs = map Some ks.
Proof.
  induction newv as [|[cells v] newv IH]; intros ks Hf Hk.
  - destruct ks; [|discriminate]. now exists [].
  - destruct ks as [|k ks]; [discriminate|]. cbn in Hk. injection Hk as Hk0 Hk.
    inversion Hf as [|? ? [Hne [g Hg]] Hf']; subst. cbn [fst snd] in *.
    destruct cells as [|c0 rest]; [contradiction|]. cbn in Hk0, Hg. subst c0.
    destruct (IH ks Hf' Hk) as (cs & Hcs & Hfst).
    exists ((Some k, g) :: cs). cbn. rewrite Hg. cbn in Hcs. rewrite Hcs.
    split; [reflexivity|]. cbn. now rewrite Hfst.
Qed.

(** X14. A run on an input file whose headers normalize to the five input
    columns of the table, in its order, whose records have five cells, whose
    priced records have quantities and prices that multiply, and whose new
    priced records have text ids, pairwise distinct, and convertible values:
    the run returns a table with the six columns of the store, whose rows are
    the priced records in their order, each followed by its product, and the
    keys of the store become the old keys followed by the ids of the new priced
    records, in the order of the file. *)
Theorem main_loads_priced_rows (w : world) (h : list pystr) (rs : list (list cell))
        (ks : list pystr) :
  lookup (input_path w) (files w) = Some (Table h rs) ->
  map (clean_column unicode_lower) h = firstn 5 schema ->
  Forall (fun cells => length cells = 5) rs ->
  Forall (fun cells => exists v, cell_mul (nth 2 cells Null) (nth 3 cells Null) = Ok v)
         (priced rs) ->
  map (fun cells => nth 0 cells Null) (unseen (table w) (priced rs)) = map Str ks ->
  NoDup ks ->
  (forall cells v, In cells (unseen (table w) (priced rs)) ->
                   cell_mul (nth 2 cells Null) (nth 3 cells Null) = Ok v ->
                   exists g, cast_fields (tl cells ++ [v]) = Some g) ->
  writable w (output_path w) = true ->
  db_opens w = true ->
  exists w' out,
    main w = (w', Ok (Some out)) /\
    columns out = schema /\
    Forall2 (fun ro cells =>
               exists v, cell_mul (nth 2 cells Null) (nth 3 cells Null) = Ok v /\
                         ro = cells ++ [v])
            (map snd (rows out)) (priced rs) /\
    keys (table w') = keys (table w) ++ ks.
Proof.
  intros Hfile Hhead Hlen Hmul Hids Hnd Hcast Hw Ho.
  (* extract *)
  pose proof (extract_computes _ _ Hfile) as Hex. rewrite Hhead in Hex.
  set (df0 := {| columns := firstn 5 schema; rows := number_rows rs |}) in *.
  set (w1 := logged w [INFO (py "Extract started"); INFO (py "Extract succesfully")]) in *.
  (* transform *)
  assert (Hsurv : map snd (surviving 3 df0) = priced rs)
    by apply surviving_number_rows.
  destruct (cells_mul_total (cell_at 2) (cell_at 3) (l := surviving 3 df0))
    as [tr Htr].
  { apply Forall_forall. intros r Hr. rewrite Forall_forall in Hmul.
    apply (Hmul (snd r)). rewrite <- Hsurv. now apply in_map. }
  assert (Hp : positions (py "price") df0 = [3]) by (vm_compute; reflexivity).
  assert (Hq : positions (py "quantity") df0 = [2]) by (vm_compute; reflexivity).
  set (d1 := {| columns := columns df0; rows := surviving 3 df0 |}) in *.
  destruct (@setitem_new_column d1 (py "total_revenue") tr)
    as (out & Hset & Hcols & Hrows); [vm_compute; reflexivity|].
  pose proof (@transform_computes _ df0 w1 2 3 tr out Hp Hq Htr Hset) as Htf.
  set (w2 := logged w1 _) in Htf.
  cbn [rows d1] in Hrows. rewrite Hsurv in Hrows.
  assert (Hschema : columns out = schema) by (rewrite Hcols; vm_compute; reflexivity).
  apply cells_mul_map in Htr.
  assert (Hprod : Forall2 (fun cells v =>
                    cell_mul (nth 2 cells Null) (nth 3 cells Null) = Ok v)
                    (priced rs) tr).
  { rewrite <- Hsurv. clear - Htr. induction Htr; cbn; constructor; auto. }
  set (pv := combine (priced rs) tr) in *.
  assert (Hpv : map fst pv = priced rs)
    by (apply combine_fst, (Forall2_length Hprod)).
  assert (Hpvrel : Forall (fun cv => cell_mul (nth 2 (fst cv) Null)
                                              (nth 3 (fst cv) Null) = Ok (snd cv)) pv)
    by exact (combine_Forall2 Hprod).
  assert (Hpvlen : Forall (fun cv => length (fst cv) = 5) pv).
  { apply Forall_forall. intros cv Hcv.
    assert (Hin : In (fst cv) (priced rs)) by (rewrite <- Hpv; now apply in_map).
    apply filter_In in Hin as [Hin _]. rewrite Forall_forall in Hlen. now apply Hlen. }
  (* the rows load takes for new *)
  set (keep := fun cells : list cell => negb (isin (nth 0 cells Null) (keys (table w)))).
  set (newv := filter (fun cv => keep (fst cv)) pv).
  assert (Hnewfst : map fst newv = unseen (table w) (priced rs)).
  { unfold newv, unseen. fold keep. rewrite <- Hpv. symmetry. apply filter_map_comm. }
  assert (Hfreshcells : map snd (rows (fresh 0 (table w) (reset_index out)))
                        = map (fun cv => fst cv ++ [snd cv]) newv).
  { rewrite fresh_cells, Hrows. fold keep. rewrite filter_map_comm.
    unfold newv. f_equal. apply filter_ext_in. intros cv Hcv.
    rewrite Forall_forall in Hpvlen. specialize (Hpvlen _ Hcv).
    unfold keep. destruct (fst cv); [discriminate | reflexivity]. }
  destruct (@convert_new_rows newv ks) as (cs & Hcs & Hcsk).
  { apply Forall_forall. intros cv Hcv.
    assert (Hcv' : In cv pv) by (unfold newv in Hcv; now apply filter_In in Hcv).
    rewrite Forall_forall in Hpvlen, Hpvrel.
    split; [specialize (Hpvlen _ Hcv'); now destruct (fst cv)|].
    apply Hcast; [rewrite <- Hnewfst; now apply in_map | now apply Hpvrel]. }
  { rewrite <- Hids, <- Hnewfst, map_map. reflexivity. }
  destruct (@append_succeeds cs (table w) ks Hcsk Hnd) as (s' & Happ & Hkeys).
  { intros k Hk Hin. assert (Hs : In (Str k) (map Str ks)) by now apply in_map.
    rewrite <- Hids in Hs. apply in_map_iff in Hs as [cells [Hc0 Hcin]].
    apply filter_In in Hcin as [_ Hkeep]. rewrite Hc0 in Hkeep. cbn in Hkeep.
    apply Bool.negb_true_iff, mem_false in Hkeep. contradiction. }
  (* load *)
  assert (Hmerge : merge (table w2) (reset_index out) = Ok s').
  { change (table w2) with (table w).
    rewrite merge_unfold, (schema_transaction_id _ Hschema).
    destruct (negb (empty (fresh 0 (table w) (reset_index out)))) eqn:He.
    - unfold insert. change (columns (fresh 0 (table w) (reset_index out)))
        with (columns out). rewrite Hschema.
      change (Nat.eqb (length schema) 6) with true. cbv iota.
      now rewrite Hfreshcells, Hcs.
    - apply Bool.negb_false_iff in He. unfold empty in He.
      change (columns (fresh 0 (table w) (reset_index out))) with (columns out) in He.
      rewrite Hschema in He.
      destruct (rows (fresh 0 (table w) (reset_index out))) eqn:Hr; [|discriminate].
      cbn in Hfreshcells. destruct newv; [|discriminate].
      cbn in Hcs. injection Hcs as <-. cbn in Happ. exact Happ. }
  destruct (@load_merged _ _ out (output_path w) w2 s') as (w' & Hl & Ht & _);
    [exact Hw | exact Ho | exact Hmerge |].
  exists w', (reset_index out). split; [|split; [|split]].
  - rewrite (main_chain _ Hex Htf). exact Hl.
  - exact Hschema.
  - cbn [rows reset_index]. rewrite number_rows_snd, Hrows.
    clear - Hprod. unfold pv. induction Hprod as [|cells v l l' Hv _ IH]; cbn;
      constructor; [now exists v | exact IH].
  - now rewrite Ht, Hkeys.
Qed.

End MainFacts.

Lemma main_without_table_only_logs_witness :
  exists l,
    main Sample.blank
    = (logged Sample.blank
         (l ++ [INFO (py "Load started");
                ERROR (py "Load failed, something went wrong: ") AttributeError]),
       Ok None).
Proof.
  eapply (@main_without_table_only_logs _ _ Sample.blank).
  - vm_compute. reflexivity.
  - vm_compute. reflexivity.
Defined.

Lemma main_loads_priced_rows_witness :
  exists w' out,
    main Sample.monday_morning = (w', Ok (Some out)) /\
    columns out = schema /\
    Forall2 (fun ro cells =>
               exists v, cell_mul (nth 2 cells Null) (nth 3 cells Null) = Ok v /\
                         ro = cells ++ [v])
            (map snd (rows out)) (priced (map snd (rows Sample.sales))) /\
    keys (table w') = keys (table Sample.monday_morning)
                      ++ [py "T1"; py "T3"; py "T4"].
Proof.
  apply (@main_loads_priced_rows _ _ Sample.monday_morning Sample.monday_header
           (map snd (rows Sample.sales)) [py "T1"; py "T3"; py "T4"]).
  - vm_compute. reflexivity.
  - vm_compute. reflexivity.
  - repeat constructor.
  - vm_compute. repeat constructor; eexists; reflexivity.
  - vm_compute. reflexivity.
  - repeat constructor; simpl;
      intros H; repeat (destruct H as [H|H]; [vm_compute in H; discriminate|]);
      exact H.
  - intros cells v _ _. eexists. reflexivity.
  - reflexivity.
  - reflexivity.
Defined.

(* ================================================================== *)
(** ** Further properties: running again *)

Section RerunFacts.
Context {R : Runtime} {E : Engine}.

Lemma filter_none {A} (f : A -> bool) (l : list A) :
  Forall (fun a => f a = false) l -> filter f l = [].
Proof.
  induction 1 as [|a l Ha _ IH]; cbn; [reflexivity|]. now rewrite Ha.
Qed.

(** X15. With text ids in the first column, a load that succeeded can be
    repeated: the second load of the same table finds every id among the
    keys, inserts nothing and returns the table again. *)
Theorem text_ids_second_load_succeeds d path w w1 r :
  positions (py "transaction_id") d = [0] ->
  Forall (fun cells => exists k, nth 0 cells Null = Str k) (map snd (rows d)) ->
  load (Some d) path w = (w1, Ok (Some r)) ->
  exists w2, load (Some d) path w1 = (w2, Ok (Some r)) /\ table w2 = table w1.
Proof.
  intros Hpos Htext H1.
  destruct (load_outcome (Some d) path w) as (w0 & Hl & Ht & _ & Hw1 & Ho1).
  rewrite Hl in H1. injection H1 as -> H1.
  destruct (writable w path && db_opens w) eqn:Hwo; [|discriminate].
  apply Bool.andb_true_iff in Hwo as [Hw Ho].
  destruct (merge (table w) (reset_index d)) as [s1|e] eqn:Hm; [|discriminate].
  injection H1 as <-.
  assert (Hpos' : positions (py "transaction_id") (reset_index d) = [0]) by exact Hpos.
  assert (Hnone : map snd (rows (fresh 0 (table w1) (reset_index d))) = []).
  { rewrite fresh_cells. apply filter_none.
    apply Forall_forall. intros cells Hin.
    rewrite Forall_forall in Htext. destruct (Htext _ Hin) as [k Hk].
    rewrite Hk. cbn. apply Bool.negb_false_iff, mem_In. rewrite Ht.
    eapply merge_stores_ids with (d := reset_index d) (cells := cells);
      [exact Hm | exact Hpos' | | exact Hk].
    cbn. now rewrite number_rows_snd. }
  assert (Hm2 : merge (table w1) (reset_index d) = Ok (table w1)).
  { rewrite merge_unfold, Hpos'. unfold empty.
    destruct (rows (fresh 0 (table w1) (reset_index d))); [reflexivity|discriminate]. }
  destruct (@load_merged _ _ d path w1 (table w1)) as (w2 & Hl2 & Ht2 & _);
    [now rewrite Hw1 | now rewrite Ho1 | exact Hm2 |].
  now exists w2.
Qed.

(** The table after a load depends on the world only through the table, and
    through whether the sink is writable and the database opens. *)
Lemma load_table_depends o path w v :
  table v = table w ->
  writable v path = writable w path ->
  db_opens v = db_opens w ->
  table (fst (load o path v)) = table (fst (load o path w)).
Proof.
  intros Ht Hw Ho.
  destruct (load_outcome o path w) as (w' & Hl & Htw & _).
  destruct (load_outcome o path v) as (v' & Hlv & Htv & _).
  rewrite Hl, Hlv. cbn [fst]. rewrite Htw, Htv. now rewrite Ht, Hw, Ho.
Qed.

(** Loading again what was just loaded leaves the table. *)
Lemma load_again o path w :
  table (fst (load o path (fst (load o path w)))) = table (fst (load o path w)).
Proof.
  destruct (load_outcome o path w) as (w1 & Hl1 & Ht1 & _ & Hw1 & Ho1).
  rewrite Hl1. cbn [fst].
  destruct (load_outcome o path w1) as (w2 & Hl2 & Ht2 & _).
  rewrite Hl2. cbn [fst]. rewrite Ht2. destruct o as [d|]; [|reflexivity].
  rewrite Hw1, Ho1. destruct (writable w path && db_opens w); [|reflexivity].
  rewrite Ht1. destruct (merge (table w) (reset_index d)) as [s1|e] eqn:Hm1.
  - destruct (merge s1 (reset_index d)) as [s2|e] eqn:Hm2; [|reflexivity].
    eapply merge_again; eassumption.
  - now rewrite Hm1.
Qed.

Lemma extract_result_depends path w v :
  lookup path (files v) = lookup path (files w) ->
  snd (extract path v) = snd (extract path w).
Proof.
  intros H. unfold extract. rewrite !try_except_None.
  unfold extract_try, bind, read_csv, logging_info, ret. cbn. rewrite H.
  destruct (lookup path (files w)) as [[h rs|]|]; reflexivity.
Qed.

Lemma transform_result_depends o w v :
  snd (transform o v) = snd (transform o w).
Proof.
  unfold transform. rewrite !try_except_None.
  unfold transform_try, bind, method_of, lift, logging_info, ret, raise. cbn.
  destruct o as [d|]; cbn; [|reflexivity].
  destruct (dropna d (py "price")) as [d1|e]; cbn; [|reflexivity].
  destruct (getitem d1 (py "quantity")) as [q|e]; cbn; [|reflexivity].
  destruct (getitem d1 (py "price")) as [p|e]; cbn; [|reflexivity].
  destruct (mul q p) as [t|e]; cbn; [|reflexivity].
  destruct (setitem d1 (py "total_revenue") t) as [d2|e]; reflexivity.
Qed.

(** The entry point is a load of what extract and transform return, in a
    world that differs from the first by its log. *)
Lemma main_as_load w :
  exists l o,
    main w = load o (output_path w) (logged w l) /\
    Ok o = snd (transform (match snd (extract (input_path w) w) with
                           | Ok r => r
                           | Raise _ => None
                           end) w).
Proof.
  destruct (extract_only_logs (input_path w) w) as (l1 & r1 & H1).
  destruct (transform_only_logs r1 (logged w l1)) as (l2 & r2 & H2).
  exists (l1 ++ l2), r2. split.
  - rewrite (main_chain _ H1 H2). now rewrite logged_logged.
  - rewrite H1. cbn [snd].
    rewrite <- (transform_result_depends r1 w (logged w l1)), H2. reflexivity.
Qed.

Lemma paths_differ w : pystr_eqb (output_path w) (input_path w) = false.
Proof.
  apply pystr_eqb_neq. unfold output_path, input_path. intros H.
  apply app_inv_head in H. vm_compute in H. discriminate.
Qed.

Lemma load_files_unwritable d path w :
  writable w path = false -> files (fst (load (Some d) path w)) = files w.
Proof.
  intros Hw. unfold load. rewrite try_except_None. unfold load_try.
  unfold bind, to_csv, method_of, ret, logging_info. cbn. now rewrite Hw.
Qed.

(** The input file, as seen after a load to the output path. *)
Lemma load_keeps_input o w v :
  cwd v = cwd w ->
  lookup (input_path w) (files (fst (load o (output_path w) v)))
  = lookup (input_path w) (files v).
Proof.
  intros Hc. destruct o as [d|]; [|now rewrite load_None].
  destruct (writable v (output_path w)) eqn:Hw.
  - rewrite (@load_files _ _ d (output_path w) v Hw). cbn [lookup].
    now rewrite paths_differ.
  - now rewrite (@load_files_unwritable d (output_path w) v Hw).
Qed.

Lemma deliver_cwd input w : cwd (deliver input w) = cwd w.
Proof. now destruct input. Qed.

Lemma same_cwd_paths w v :
  cwd v = cwd w -> input_path v = input_path w /\ output_path v = output_path w.
Proof. intros H. unfold input_path, output_path. now rewrite H. Qed.

(** X16. Running the pipeline a second time on the same input file adds
    nothing to the store: the table after the second run is the table after
    the first, whatever the file holds and whether or not the runs succeed. *)
Theorem pipeline_rerun_adds_nothing (input : option file) (w : world) :
  table (run_all [input; input] w) = table (run_all [input] w).
Proof.
  cbn [run_all]. unfold run_pipeline.
  set (wA := deliver input w).
  destruct (main_as_load wA) as (l & o & HmA & HoA).
  set (w1 := fst (main wA)).
  set (wB := deliver input w1).
  destruct (main_as_load wB) as (l' & o' & HmB & HoB).
  (* what the first run kept *)
  destruct (load_outcome o (output_path wA) (logged wA l))
    as (w1' & Hl1 & _ & Hc1 & Hw1 & Ho1).
  assert (E1 : w1 = w1') by (unfold w1; now rewrite HmA, Hl1).
  assert (Hcw1 : cwd w1 = cwd wA) by (rewrite E1, Hc1; reflexivity).
  assert (HcB : cwd wB = cwd wA) by (unfold wB; now rewrite deliver_cwd).
  destruct (same_cwd_paths _ _ HcB) as [HiB HpB].
  destruct (same_cwd_paths _ _ Hcw1) as [Hi1 _].
  (* the second run reads the same input *)
  assert (Hlook : lookup (input_path wA) (files wB)
                  = lookup (input_path wA) (files wA)).
  { unfold wB. destruct input as [f|].
    - unfold deliver at 1. cbn [files with_files]. rewrite Hi1, lookup_first.
      unfold wA, deliver. cbn [files with_files].
      change (input_path (with_files w ((input_path w, f) :: files w)))
        with (input_path w).
      now rewrite lookup_first.
    - unfold deliver at 1. unfold w1. rewrite HmA.
      now rewrite (@load_keeps_input o wA (logged wA l)). }
  (* so it prepares the same table *)
  assert (Hoo : o' = o).
  { rewrite HiB in HoB.
    rewrite (extract_result_depends (input_path wA) wA wB Hlook) in HoB.
    rewrite (transform_result_depends _ wA wB) in HoB.
    rewrite <- HoA in HoB. now injection HoB. }
  subst o'.
  (* and loads it into the table the first run left *)
  rewrite HmB, HpB.
  rewrite (@load_table_depends o (output_path wA) w1 (logged wB l')).
  - unfold w1. rewrite HmA. apply load_again.
  - unfold wB. now destruct input.
  - unfold wB. now destruct input.
  - unfold wB. now destruct input.
Qed.

End RerunFacts.

(* ================================================================== *)
(** ** Further properties: what the log tells *)

Section LogFacts.
Context {R : Runtime} {E : Engine}.

(** X17. The last log line tells how a stage ended: a stage that returns a
    table has just logged its success line, and a stage that returns [None]
    has just logged its error line with the exception; no stage returns
    [None] without that line, and none raises. *)
Theorem stage_result_in_log (path out : pystr) (o : option DataFrame) (w : world)
        (d : entry) :
  (match extract path w with
   | (w', Ok (Some _)) => last (log w') d = INFO (py "Extract succesfully")
   | (w', Ok None) =>
       exists e, last (log w') d
                 = ERROR (py "Extract failed, something went wrong: ") e
   | (_, Raise _) => False
   end) /\
  (match transform o w with
   | (w', Ok (Some _)) => last (log w') d = INFO (py "Transform succesfully")
   | (w', Ok None) =>
       exists e, last (log w') d
                 = ERROR (py "Transform failed, something went wrong: ") e
   | (_, Raise _) => False
   end) /\
  (match load o out w with
   | (w', Ok (Some _)) => last (log w') d = INFO (py "Load succesfully")
   | (w', Ok None) =>
       exists e, last (log w') d
                 = ERROR (py "Load failed, something went wrong: ") e
   | (_, Raise _) => False
   end).
Proof.
  split; [|split].
  - unfold extract. rewrite try_except_None.
    unfold extract_try, bind, read_csv, logging_info, ret. cbn.
    destruct (lookup path (files w)) as [[h rs|]|]; cbn;
      rewrite ?last_last; try reflexivity; eexists; reflexivity.
  - unfold transform. rewrite try_except_None.
    unfold transform_try, bind, method_of, lift, logging_info, ret, raise. cbn.
    destruct o as [df|]; cbn;
      [destruct (dropna df (py "price")) as [d1|e]; cbn;
       [destruct (getitem d1 (py "quantity")) as [q|e]; cbn;
        [destruct (getitem d1 (py "price")) as [p|e]; cbn;
         [destruct (mul q p) as [t|e]; cbn;
        [destruct (setitem d1 (py "total_revenue") t) as [d2|e]; cbn|]|]|]|]|];
      rewrite ?last_last; try reflexivity; eexists; reflexivity.
  - unfold load. rewrite try_except_None. unfold load_try.
    unfold bind, to_csv, connect, create_table_if_not_exists,
      select_transaction_id, new_rows, insert_into_daily_sales, getcwd, close,
      ret, lift, raise, logging_info, method_of.
    destruct o as [df|]; cbn;
      [|rewrite last_last; eexists; reflexivity].
    destruct (writable w out); cbn;
      [|rewrite last_last; eexists; reflexivity].
    destruct (db_opens w); cbn;
      [|rewrite last_last; eexists; reflexivity].
    destruct (getitem (reset_index df) (py "transaction_id")) as [[ids|]|e];
      destruct (db w) as [s|] eqn:Hd; cbn; rewrite ?Hd; cbn;
      try (rewrite last_last; eexists; reflexivity).
    + destruct (negb (empty _)); cbn; rewrite ?Hd; cbn;
        [destruct (insert s _); cbn|];
        rewrite ?last_last; try reflexivity; eexists; reflexivity.
    + destruct (negb (empty _)); cbn;
        [destruct (insert [] _); cbn|];
        rewrite ?last_last; try reflexivity; eexists; reflexivity.
Qed.

End LogFacts.

Lemma text_ids_second_load_succeeds_witness :
  exists w2,
    load (Some Sample.batch_ab) Sample.sink
         (fst (load (Some Sample.batch_ab) Sample.sink Sample.blank))
    = (w2, Ok (Some Sample.batch_ab)) /\
    table w2 = table (fst (load (Some Sample.batch_ab) Sample.sink Sample.blank)).
Proof.
  apply (@text_ids_second_load_succeeds _ _ Sample.batch_ab Sample.sink Sample.blank).
  - vm_compute. reflexivity.
  - repeat constructor; eexists; reflexivity.
  - vm_compute. reflexivity.
Defined.
